(** * Session and context controller of the purchase-decision chatbot (src/app.py)

    A shallow embedding of the part of [app.py] that owns the conversation:
    the session state, the context slice sent to the model, the retry loop
    around [generate_content], and the recording of the answer.  The script
    is stateful and may be left by an exception, so it is written in a small
    state/trace/exception monad; a raised exception keeps the state reached
    so far, as a Python exception does not undo [list.append]. *)

From Stdlib Require Import ZArith QArith Qround String Lia Lqa.
From stdpp Require Import base list strings.

Local Open Scope string_scope.
Local Open Scope Z_scope.
Local Open Scope list_scope.

(** ** Python values *)

(** Truth value of a [str | None]: [None] and the empty string are falsy,
    every other string (blank ones included) is truthy. *)
Definition truthy (v : option string) : bool :=
  match v with
  | None => false
  | Some s => negb (String.eqb s "")
  end.

(** [l[start:]] for an integer [start]: a negative start counts from the
    end, and the bound is clamped to [0 .. len l]. *)
Definition slice_from {A : Type} (start : Z) (l : list A) : list A :=
  let n := Z.of_nat (length l) in
  let lo := if start <? 0 then Z.max (start + n) 0 else Z.min start n in
  drop (Z.to_nat lo) l.

(** [range(n)] *)
Definition range (n : Z) : list Z := Z.of_nat <$> seq 0 (Z.to_nat n).

(** ** Constants (lines 8-19) *)

Definition AVAILABLE_MODELS : list string :=
  ["gemini-2.0-flash"; "gemini-2.5-flash"; "gemini-2.5-pro"; "gemini-2.0-pro"].
Definition MAX_CONTEXT_TURNS : Z := 6.
Definition MAX_HISTORY_PARTS : Z := MAX_CONTEXT_TURNS * 2.
Definition MAX_RETRIES : Z := 3.

(** The names bound in the module namespace when [main] runs: the imports
    of lines 1-6, the constants and the three functions. *)
Definition module_globals : list string :=
  ["st"; "pd"; "time"; "uuid"; "genai"; "ResourceExhaustedError"; "APIError";
   "APP_TITLE"; "AVAILABLE_MODELS"; "MAX_CONTEXT_TURNS"; "MAX_HISTORY_PARTS";
   "MAX_RETRIES"; "SYSTEM_PROMPT"; "get_gemini_client"; "setup_sidebar"; "main"].

(** The three texts assigned to [response_text] by the exception handlers
    (lines 175, 180, 185). *)
Definition MSG_BUSY : string :=
  "죄송합니다. 현재 서비스에 접속자가 많아 응답을 드릴 수 없습니다. 잠시 후 '대화 초기화' 버튼을 눌러 다시 시작해 주세요.".
Definition MSG_API : string :=
  "API 통신 중 예기치 않은 오류가 발생했습니다. 잠시 후 다시 시도해 주세요.".
Definition MSG_UNKNOWN : string :=
  "처리 중 알 수 없는 오류가 발생했습니다.".

(** ** Data model *)

(** [{"text": t}] *)
Record part := { text : string }.

(** [{"role": r, "parts": [...]}] *)
Record message := { role : string; parts : list part }.

(** [st.session_state]: the three keys initialised at lines 33-39 and the
    two widget-backed keys read by [main]. *)
Record session_state := {
  session_id : string;
  chat_history : list message;
  log_count : Z;
  selected_model : string;
  auto_record_csv : bool
}.

Definition user_message_part (user_prompt : string) : message :=
  {| role := "user"; parts := [ {| text := user_prompt |} ] |}.

Definition model_message_part (response_text : string) : message :=
  {| role := "model"; parts := [ {| text := response_text |} ] |}.

(** What one call of [client.models.generate_content] does: it returns a
    response whose [.text] is a string or [None], or it raises. *)
Inductive call_result :=
| Response (response_text : option string)
| RaiseResourceExhaustedError
| RaiseAPIError (e : string)
| RaiseException (e : string).

(** Observable effects of a run, in the order they happen. *)
Inductive event :=
| EvGenerateContent (model : string) (contents : list message)
| EvSleep (wait_time : Q)
| EvToCsv (file_name : string) (rows : list (string * string)).

(** Exceptions that leave the script. *)
Inductive exn :=
| NameError (name : string)
| IndexError
| RerunException.

Inductive result (A : Type) :=
| Ok (a : A)
| Raise (e : exn).
Arguments Ok {A} a.
Arguments Raise {A} e.

(** ** The script monad *)

Definition M (A : Type) : Type :=
  session_state -> result A * session_state * list event.

#[export] Instance M_ret : MRet M := fun A a s => (Ok a, s, []).

#[export] Instance M_bind : MBind M := fun A B f m s =>
  match m s with
  | (Ok a, s1, t1) =>
      match f a s1 with
      | (r, s2, t2) => (r, s2, t1 ++ t2)
      end
  | (Raise e, s1, t1) => (Raise e, s1, t1)
  end.

Definition raise {A : Type} (e : exn) : M A := fun s => (Raise e, s, []).
Definition emit (ev : event) : M unit := fun s => (Ok tt, s, [ev]).
Definition read {A : Type} (field : session_state -> A) : M A :=
  fun s => (Ok (field s), s, []).

(** [st.session_state.chat_history.append(m)] *)
Definition append_history (m : message) : M unit := fun s =>
  (Ok tt,
   {| session_id := session_id s;
      chat_history := chat_history s ++ [m];
      log_count := log_count s;
      selected_model := selected_model s;
      auto_record_csv := auto_record_csv s |},
   []).

(** [st.session_state.log_count += 1] *)
Definition incr_log_count : M unit := fun s =>
  (Ok tt,
   {| session_id := session_id s;
      chat_history := chat_history s;
      log_count := log_count s + 1;
      selected_model := selected_model s;
      auto_record_csv := auto_record_csv s |},
   []).

(** Final state, trace and exit of a run. *)
Definition state_of {A : Type} (r : result A * session_state * list event)
  : session_state := snd (fst r).
Definition trace_of {A : Type} (r : result A * session_state * list event)
  : list event := snd r.
Definition exit_of {A : Type} (r : result A * session_state * list event)
  : result A := fst (fst r).

(** ** Trace observations *)

Definition is_generate (ev : event) : bool :=
  match ev with EvGenerateContent _ _ => true | _ => false end.
Definition is_sleep (ev : event) : bool :=
  match ev with EvSleep _ => true | _ => false end.
Definition is_to_csv (ev : event) : bool :=
  match ev with EvToCsv _ _ => true | _ => false end.

Definition remote_calls (t : list event) : nat := length (filter is_generate t).
Definition sleeps (t : list event) : nat := length (filter is_sleep t).
Definition csv_writes (t : list event) : nat := length (filter is_to_csv t).

(** Number of turns of a history whose role is ["model"]. *)
Definition model_turns (h : list message) : Z :=
  Z.of_nat (length (filter (fun m => String.eqb (role m) "model") h)).

(** ** The script *)

(** [m["parts"][0]["text"]] *)
Definition first_text (m : message) : result string :=
  match parts m with
  | p :: _ => Ok (text p)
  | [] => Raise IndexError
  end.

(** The list comprehension of lines 105-106 and 198-199. *)
Fixpoint log_data (h : list message) : result (list (string * string)) :=
  match h with
  | [] => Ok []
  | m :: h' =>
      match first_text m with
      | Raise e => Raise e
      | Ok content =>
          match log_data h' with
          | Raise e => Raise e
          | Ok rows => Ok ((role m, content) :: rows)
          end
      end
  end.

Definition lift {A : Type} (r : result A) : M A := fun s => (r, s, []).

(** The reset button of the sidebar (lines 97-101); [new_session_id] is the
    value of [str(uuid.uuid4())]. *)
Definition reset (new_session_id : string) : M unit := fun s =>
  (Raise RerunException,
   {| session_id := new_session_id;
      chat_history := [];
      log_count := 0;
      selected_model := selected_model s;
      auto_record_csv := auto_record_csv s |},
   []).

(** Line 147 with the window length as a parameter:
    [chat_history[-K:]]. *)
Definition context_for_api (K : Z) (h : list message) : list message :=
  slice_from (- K) h.

(** The statement of line 147 as a step of the script: it reads the
    history and binds the slice. *)
Definition build_context (K : Z) : M (list message) :=
  h ← read chat_history;
  mret (context_for_api K h).

Section Script.

(** Names bound in the module namespace. *)
Variable globals : list string.
(** Value of [random.uniform(0, 1)] drawn at a given attempt, when the
    name [random] resolves. *)
Variable uniform : Z -> Q.
(** Behaviour of the remote call at a given attempt. *)
Variable generate_content : Z -> call_result.

(** Line 170: [(2 ** attempt) + random.uniform(0, 1)].  The power is
    evaluated first, then the global name [random] is looked up. *)
Definition wait_time (attempt : Z) : M Q :=
  let base := inject_Z (2 ^ attempt) in
  if bool_decide ("random" ∈ globals)
  then mret (base + uniform attempt)%Q
  else raise (NameError "random").

(** Lines 152-186: the body of [for attempt in range(MAX_RETRIES)], run on
    the attempts still to come; the result is the final [response_text].
    An exception raised inside a handler is not caught by the sibling
    handlers. *)
Fixpoint retry_loop (attempts : list Z) (contents : list message)
  : M (option string) :=
  match attempts with
  | [] => mret None
  | attempt :: rest =>
      model ← read selected_model;
      emit (EvGenerateContent model contents);;
      match generate_content attempt with
      | Response response_text => mret response_text
      | RaiseResourceExhaustedError =>
          if attempt <? MAX_RETRIES - 1 then
            w ← wait_time attempt;
            emit (EvSleep w);;
            retry_loop rest contents
          else mret (Some MSG_BUSY)
      | RaiseAPIError _ => mret (Some MSG_API)
      | RaiseException _ => mret (Some MSG_UNKNOWN)
      end
  end.

(** Lines 189-201. *)
Definition record_response (response_text : option string) : M unit :=
  if truthy response_text then
    append_history (model_message_part (default "" response_text));;
    incr_log_count;;
    auto ← read auto_record_csv;
    if (auto : bool) then
      h ← read chat_history;
      rows ← lift (log_data h);
      sid ← read session_id;
      emit (EvToCsv ("chat_log_" +:+ sid +:+ "_auto.csv") rows)
    else mret tt
  else mret tt.

(** Lines 137-204: the block run for the value of [st.chat_input]. *)
Definition handle_user_turn (user_prompt : option string) : M unit :=
  if truthy user_prompt then
    append_history (user_message_part (default "" user_prompt));;
    contents ← build_context MAX_HISTORY_PARTS;
    response_text ← retry_loop (range MAX_RETRIES) contents;
    record_response response_text;;
    raise RerunException
  else mret tt.

End Script.

(** ** One run of the script *)

(** What the user and the environment supply to one run. *)
Record run_input := {
  in_model : string;               (* value of the model selectbox *)
  in_auto_record : bool;           (* value of the CSV checkbox *)
  in_reset : bool;                 (* reset button pressed *)
  in_uuid : string;                (* str(uuid.uuid4()), if drawn *)
  in_client : option (Z -> call_result);  (* None: no API key, no client *)
  in_uniform : Z -> Q;
  in_prompt : option string        (* value of st.chat_input *)
}.

(** The widgets with a [key] store their value in the session state. *)
Definition set_widgets (model : string) (auto : bool) : M unit := fun s =>
  (Ok tt,
   {| session_id := session_id s;
      chat_history := chat_history s;
      log_count := log_count s;
      selected_model := model;
      auto_record_csv := auto |},
   []).

(** Lines 67-114. *)
Definition setup_sidebar (i : run_input) : M unit :=
  set_widgets (in_model i) (in_auto_record i);;
  (if in_reset i then reset (in_uuid i) else mret tt);;
  h ← read chat_history;
  match h with
  | [] => mret tt
  | _ :: _ => _ ← lift (log_data h); mret tt
  end.

(** Lines 130-134: every stored message is rendered through
    [message["parts"][0]["text"]]. *)
Fixpoint render_history (h : list message) : result unit :=
  match h with
  | [] => Ok tt
  | m :: h' =>
      match first_text m with
      | Raise e => Raise e
      | Ok _ => render_history h'
      end
  end.

(** Lines 117-204. *)
Definition main (i : run_input) : M unit :=
  setup_sidebar i;;
  match in_client i with
  | None => mret tt
  | Some generate_content =>
      h ← read chat_history;
      lift (render_history h);;
      handle_user_turn module_globals (in_uniform i) generate_content
        (in_prompt i)
  end.

(** Lines 33-39 on a fresh session; the widgets start at their defaults. *)
Definition initial_state (uuid : string) : session_state :=
  {| session_id := uuid;
     chat_history := [];
     log_count := 0;
     selected_model := "gemini-2.0-flash";
     auto_record_csv := true |}.

(** The session states the application can be in: the session state
    outlives each run, whether the run ends normally or by an exception. *)
Inductive reachable : session_state -> Prop :=
| reachable_initial uuid : reachable (initial_state uuid)
| reachable_run s i : reachable s -> reachable (state_of (main i s)).

(** A conversation driven through [handle_user_turn] alone: each turn
    brings its prompt, its remote behaviour and its jitter source. *)
Record turn_input := {
  turn_prompt : option string;
  turn_remote : Z -> call_result;
  turn_uniform : Z -> Q
}.

Fixpoint run_turns (globals : list string) (turns : list turn_input)
  (s : session_state) : session_state :=
  match turns with
  | [] => s
  | t :: rest =>
      run_turns globals rest
        (state_of (handle_user_turn globals (turn_uniform t) (turn_remote t)
                     (turn_prompt t) s))
  end.

(** Whether [needle] occurs in [hay]. *)
Fixpoint occurs_in (needle hay : string) : bool :=
  if String.prefix needle hay then true
  else match hay with
       | EmptyString => false
       | String _ hay' => occurs_in needle hay'
       end.

(** The names under which the code and the specification classify a failed
    call. *)
Definition error_class_names : list string :=
  ["ResourceExhaustedError"; "APIError"; "Exception";
   "RateLimited"; "ApiFault"; "Unclassified"].

Definition names_no_error_class (msg : string) : bool :=
  forallb (fun n => negb (occurs_in n msg)) error_class_names.

(** ** Derived states and invariants *)

(** The session state with a new history and counter. *)
Definition with_history (s : session_state) (h : list message) (n : Z)
  : session_state :=
  {| session_id := session_id s;
     chat_history := h;
     log_count := n;
     selected_model := selected_model s;
     auto_record_csv := auto_record_csv s |}.

(** The state in which the remote call is made. *)
Definition after_user_turn (s : session_state) (p : string) : session_state :=
  with_history s (chat_history s ++ [user_message_part p]) (log_count s).

(** The state after the widgets are stored. *)
Definition with_widgets (i : run_input) (s : session_state) : session_state :=
  state_of (set_widgets (in_model i) (in_auto_record i) s).

(** The two facts that hold of every state the application reaches: the
    counter equals the number of model turns, and every stored message can
    be rendered. *)
Definition consistent (s : session_state) : Prop :=
  log_count s = model_turns (chat_history s) /\
  exists rows, log_data (chat_history s) = Ok rows.

(** ** Sample inputs *)

Definition sample_state : session_state := initial_state "session-1".

Definition one_turn_state : session_state :=
  with_history sample_state [user_message_part "hi"] 0.

Definition quiet_state : session_state :=
  {| session_id := "session-1";
     chat_history := [];
     log_count := 0;
     selected_model := "gemini-2.0-flash";
     auto_record_csv := false |}.

Definition remote_ok (_ : Z) : call_result := Response (Some "ok").
Definition remote_empty (_ : Z) : call_result := Response (Some "").
Definition remote_rate_limited (_ : Z) : call_result :=
  RaiseResourceExhaustedError.
Definition remote_api_error (_ : Z) : call_result := RaiseAPIError "500".
Definition half (_ : Z) : Q := 1 # 2.

Definition sample_run : run_input :=
  {| in_model := "gemini-2.5-pro";
     in_auto_record := true;
     in_reset := false;
     in_uuid := "session-2";
     in_client := Some remote_ok;
     in_uniform := half;
     in_prompt := Some "hi" |}.

Definition reset_input : run_input :=
  {| in_model := "gemini-2.5-pro";
     in_auto_record := false;
     in_reset := true;
     in_uuid := "session-2";
     in_client := Some remote_ok;
     in_uniform := half;
     in_prompt := Some "hi" |}.

Definition keyless_input : run_input :=
  {| in_model := "gemini-2.5-pro";
     in_auto_record := true;
     in_reset := false;
     in_uuid := "session-2";
     in_client := None;
     in_uniform := half;
     in_prompt := Some "hi" |}.

(** ** The API client (lines 42-64) *)

(** What [genai.Client(api_key=...)] does for a given key. *)
Inductive construction :=
| Constructed
| ConstructionRaises (e : string).

(** A client, known by the key it was built with. *)
Record client := { client_api_key : string }.

(** Messages shown in the sidebar by [get_gemini_client]. *)
Inductive notice :=
| NoticeWarning
| NoticeInfo
| NoticeError (e : string).

(** Lines 58-64: the [try] around the constructor. *)
Definition create_client (new_client : string -> construction) (api_key : string)
  : option client * list notice :=
  match new_client api_key with
  | Constructed => (Some {| client_api_key := api_key |}, [])
  | ConstructionRaises e => (None, [NoticeError e])
  end.

(** Lines 42-64.  [secret] is the value of
    [st.secrets.get('GEMINI_API_KEY')], [user_input_key] the content of the
    sidebar text input. *)
Definition get_gemini_client (secret : option string) (user_input_key : string)
  (new_client : string -> construction) : option client * list notice :=
  if truthy secret then create_client new_client (default "" secret)
  else if truthy (Some user_input_key) then
    match create_client new_client user_input_key with
    | (c, notices) => (c, NoticeWarning :: notices)
    end
  else (None, [NoticeWarning; NoticeInfo]).

(** ** Rendering the history (lines 130-134) *)

(** ["user" if message["role"] == "user" else "assistant"] *)
Definition display_role (m : message) : string :=
  if String.eqb (role m) "user" then "user" else "assistant".

(** The chat bubbles drawn by the loop, as (role, text) pairs. *)
Fixpoint chat_messages (h : list message) : result (list (string * string)) :=
  match h with
  | [] => Ok []
  | m :: h' =>
      match first_text m with
      | Raise e => Raise e
      | Ok content =>
          match chat_messages h' with
          | Raise e => Raise e
          | Ok shown => Ok ((display_role m, content) :: shown)
          end
      end
  end.

(** ** Shape of a history *)

(** Number of turns of a history whose role is ["user"]. *)
Definition user_turns (h : list message) : Z :=
  Z.of_nat (length (filter (fun m => String.eqb (role m) "user") h)).

(** Histories built by appending, turn after turn, either a user message
    alone or a user message followed by a model message, all with non-empty
    text. *)
Inductive turns_shape : list message -> Prop :=
| shape_empty : turns_shape []
| shape_user h p :
    turns_shape h -> p <> "" -> turns_shape (h ++ [user_message_part p])
| shape_exchange h p answer :
    turns_shape h -> p <> "" -> answer <> "" ->
    turns_shape (h ++ [user_message_part p; model_message_part answer]).

(** A history of complete exchanges, one per (prompt, answer) pair. *)
Fixpoint exchanges (turns : list (string * string)) : list message :=
  match turns with
  | [] => []
  | (p, answer) :: rest =>
      user_message_part p :: model_message_part answer :: exchanges rest
  end.

(** The exit of a run of [main] read off its input. *)
Definition expected_exit (i : run_input) : result unit :=
  if in_reset i then Raise RerunException
  else match in_client i with
       | None => Ok tt
       | Some generate_content =>
           if truthy (in_prompt i) then
             match generate_content 0 with
             | RaiseResourceExhaustedError => Raise (NameError "random")
             | _ => Raise RerunException
             end
           else Ok tt
       end.

(** * Properties *)

(** Unfolds the monad operations in the goal. *)
Ltac run_script :=
  unfold mbind, M_bind, mret, M_ret, read, emit, raise, lift,
    append_history, incr_log_count, state_of, trace_of, exit_of in *;
  cbn [fst snd app] in *.

(** ** The context slice *)

Section Slice.
Context {A : Type}.
Implicit Types l : list A.

Lemma slice_from_neg (k : Z) l :
  1 <= k ->
  slice_from (- k) l = drop (length l - Z.to_nat (Z.min (Z.of_nat (length l)) k)) l.
Proof.
  intros Hk. unfold slice_from.
  destruct (Z.ltb_spec (- k) 0) as [_|]; [|lia].
  f_equal. lia.
Qed.

Lemma slice_from_zero l : slice_from 0 l = l.
Proof.
  unfold slice_from. destruct (Z.ltb_spec 0 0) as [|_]; [lia|].
  replace (Z.to_nat (Z.min 0 (Z.of_nat (length l)))) with 0%nat by lia.
  reflexivity.
Qed.

Lemma slice_from_suffix (start : Z) l : slice_from start l `suffix_of` l.
Proof. unfold slice_from. apply suffix_drop. Qed.

Lemma slice_from_neg_length (k : Z) l :
  1 <= k ->
  Z.of_nat (length (slice_from (- k) l)) = Z.min (Z.of_nat (length l)) k.
Proof.
  intros Hk. rewrite slice_from_neg by done. rewrite length_drop. lia.
Qed.

Lemma slice_from_neg_last (k : Z) l x :
  1 <= k -> last (slice_from (- k) (l ++ [x])) = Some x.
Proof.
  intros Hk. rewrite slice_from_neg by done.
  rewrite length_app. simpl.
  rewrite drop_app_le by lia. apply last_snoc.
Qed.
End Slice.

(** ** Running the script *)

Lemma with_history_same s : with_history s (chat_history s) (log_count s) = s.
Proof. destruct s; reflexivity. Qed.

Lemma truthy_Some (p : string) : p <> "" -> truthy (Some p) = true.
Proof.
  intros Hp. cbn. destruct (String.eqb_spec p ""); [contradiction|reflexivity].
Qed.

Lemma truthy_inv (v : option string) :
  truthy v = true -> exists p, v = Some p /\ p <> "".
Proof.
  destruct v as [p|]; cbn; [|discriminate].
  destruct (String.eqb_spec p ""); [discriminate|]. eauto.
Qed.

Section RetryLoop.
Variable globals : list string.
Variable uniform : Z -> Q.
Variable generate_content : Z -> call_result.

Local Abbreviation loop := (retry_loop globals uniform generate_content).

(** The loop only reads the session state. *)
Lemma retry_loop_state attempts contents s :
  state_of (loop attempts contents s) = s.
Proof.
  induction attempts as [|attempt rest IH]; [reflexivity|].
  cbn [retry_loop]. run_script.
  destruct (generate_content attempt); try reflexivity.
  destruct (attempt <? MAX_RETRIES - 1); [|reflexivity].
  unfold wait_time. destruct (bool_decide _); run_script; [|reflexivity].
  destruct (retry_loop _ _ _ rest contents s) as [[r s'] t] eqn:E.
  cbn in *. exact IH.
Qed.

(** Every remote call of the loop carries the selected model and the
    contents the loop was given; its other events are sleeps. *)
Lemma retry_loop_trace attempts contents s :
  Forall (fun ev => ev = EvGenerateContent (selected_model s) contents
                    \/ is_sleep ev = true)
    (trace_of (loop attempts contents s)).
Proof.
  induction attempts as [|attempt rest IH].
  { constructor. }
  cbn [retry_loop]. run_script.
  destruct (generate_content attempt);
    try (constructor; [left; reflexivity|constructor]).
  destruct (attempt <? MAX_RETRIES - 1);
    [|constructor; [left; reflexivity|constructor]].
  unfold wait_time. destruct (bool_decide _); run_script;
    [|constructor; [left; reflexivity|constructor]].
  destruct (retry_loop _ _ _ rest contents s) as [[r s'] t] eqn:E.
  cbn in *. constructor; [left; reflexivity|].
  constructor; [right; reflexivity|]. exact IH.
Qed.

(** The loop starts with a remote call. *)
Lemma retry_loop_first_call attempt rest contents s :
  exists t, trace_of (loop (attempt :: rest) contents s)
            = EvGenerateContent (selected_model s) contents :: t.
Proof.
  cbn [retry_loop]. run_script.
  destruct (generate_content attempt); try (eexists; reflexivity).
  destruct (attempt <? MAX_RETRIES - 1); [|eexists; reflexivity].
  unfold wait_time. destruct (bool_decide _); run_script;
    [|eexists; reflexivity].
  destruct (retry_loop _ _ _ rest contents s) as [[r s'] t].
  eexists; reflexivity.
Qed.

(** State reached by lines 189-201. *)
Lemma record_response_state response_text s :
  state_of (record_response response_text s) =
    if truthy response_text
    then with_history s
           (chat_history s ++ [model_message_part (default "" response_text)])
           (log_count s + 1)
    else s.
Proof.
  unfold record_response. destruct (truthy response_text); [|reflexivity].
  run_script. unfold with_history. cbn.
  destruct (auto_record_csv s); [|reflexivity].
  cbn. destruct (log_data _); reflexivity.
Qed.

(** The run of an accepted prompt, phase by phase. *)
Lemma handle_user_turn_accepted p s :
  p <> "" ->
  let s1 := after_user_turn s p in
  let contents := context_for_api MAX_HISTORY_PARTS (chat_history s1) in
  handle_user_turn globals uniform generate_content (Some p) s =
    match loop (range MAX_RETRIES) contents s1 with
    | (Ok response_text, _, t) =>
        match record_response response_text s1 with
        | (Ok _, s2, t2) => (Raise RerunException, s2, t ++ t2 ++ [])
        | (Raise e, s2, t2) => (Raise e, s2, t ++ t2)
        end
    | (Raise e, _, t) => (Raise e, s1, t)
    end.
Proof.
  intros Hp s1 contents. unfold handle_user_turn.
  rewrite (truthy_Some p Hp). unfold build_context.
  pose proof (retry_loop_state (range MAX_RETRIES) contents s1) as Hst.
  change (default "" (Some p)) with p.
  run_script.
  change (with_history s (chat_history s ++ [user_message_part p]) (log_count s))
    with s1 in Hst.
  change {| session_id := session_id s;
            chat_history := chat_history s ++ [user_message_part p];
            log_count := log_count s;
            selected_model := selected_model s;
            auto_record_csv := auto_record_csv s |} with s1.
  fold contents.
  destruct (retry_loop _ _ _ _ contents s1) as [[[rt|e] s1'] t].
  - cbn in Hst. subst s1'.
    destruct (record_response rt s1) as [[[[]|e] s2] t2]; reflexivity.
  - cbn in Hst. subst s1'. reflexivity.
Qed.

Lemma handle_user_turn_rejected user_prompt s :
  truthy user_prompt = false ->
  handle_user_turn globals uniform generate_content user_prompt s
  = (Ok tt, s, []).
Proof. intros H. unfold handle_user_turn. rewrite H. reflexivity. Qed.

(** The state a turn can end in. *)
Lemma handle_user_turn_state user_prompt s :
  let s' := state_of (handle_user_turn globals uniform generate_content
                        user_prompt s) in
  (truthy user_prompt = false /\ s' = s) \/
  (exists p, user_prompt = Some p /\ p <> "" /\
     (s' = after_user_turn s p \/
      exists answer, answer <> "" /\
        s' = with_history s
               (chat_history s ++ [user_message_part p; model_message_part answer])
               (log_count s + 1))).
Proof.
  destruct (truthy user_prompt) eqn:Ht.
  - right. destruct (truthy_inv _ Ht) as (p & -> & Hp).
    exists p. split; [reflexivity|]. split; [assumption|].
    rewrite handle_user_turn_accepted by assumption. cbv zeta.
    destruct (loop _ _ _) as [[[rt|e] s1'] t]; [|left; reflexivity].
    pose proof (record_response_state rt (after_user_turn s p)) as Hrec.
    destruct (record_response rt _) as [[r2 s2] t2].
    unfold state_of in Hrec. cbn [fst snd] in Hrec.
    assert (state_of (match r2 with
                      | Ok _ => (@Raise unit RerunException, s2, t ++ t2 ++ [])
                      | Raise e => (Raise e, s2, t ++ t2) end) = s2) as ->
      by (destruct r2; reflexivity).
    subst s2. destruct (truthy rt) eqn:Hrt; [|left; reflexivity].
    right. destruct (truthy_inv _ Hrt) as (answer & -> & Ha).
    exists answer. split; [assumption|].
    unfold after_user_turn, with_history. cbn. rewrite <- app_assoc. reflexivity.
  - left. split; [reflexivity|].
    rewrite handle_user_turn_rejected by assumption. reflexivity.
Qed.
End RetryLoop.

(** ** Whole runs and reachable states *)

Lemma state_of_bind {A B : Type} (m : M A) (f : A -> M B) s :
  state_of ((m ≫= f) s) =
    match exit_of (m s) with
    | Ok a => state_of (f a (state_of (m s)))
    | Raise _ => state_of (m s)
    end.
Proof.
  unfold mbind, M_bind, state_of, exit_of.
  destruct (m s) as [[[a|e] s1] t1]; cbn; [|reflexivity].
  destruct (f a s1) as [[r s2] t2]. reflexivity.
Qed.

Lemma model_turns_app h1 h2 :
  model_turns (h1 ++ h2) = model_turns h1 + model_turns h2.
Proof. unfold model_turns. rewrite filter_app, length_app. lia. Qed.

Lemma model_turns_user h p :
  model_turns (h ++ [user_message_part p]) = model_turns h.
Proof. rewrite model_turns_app. change (model_turns [_]) with 0. lia. Qed.

Lemma model_turns_user_model h p answer :
  model_turns (h ++ [user_message_part p; model_message_part answer])
  = model_turns h + 1.
Proof. rewrite model_turns_app. change (model_turns [_; _]) with 1. lia. Qed.

Lemma log_data_app h1 h2 rows1 rows2 :
  log_data h1 = Ok rows1 -> log_data h2 = Ok rows2 ->
  log_data (h1 ++ h2) = Ok (rows1 ++ rows2).
Proof.
  revert rows1. induction h1 as [|m h1 IH]; intros rows1 H1 H2; cbn in *.
  - injection H1 as <-. exact H2.
  - destruct (first_text m) as [content|]; [|discriminate].
    destruct (log_data h1) as [rows|]; [|discriminate].
    injection H1 as <-. rewrite (IH rows eq_refl H2). reflexivity.
Qed.

Lemma setup_sidebar_state i s :
  state_of (setup_sidebar i s) =
    if in_reset i then state_of (reset (in_uuid i) (with_widgets i s))
    else with_widgets i s.
Proof.
  unfold setup_sidebar. rewrite state_of_bind. cbn [exit_of set_widgets fst].
  fold (with_widgets i s). rewrite state_of_bind.
  destruct (in_reset i); [reflexivity|].
  cbn [exit_of mret M_ret fst]. rewrite state_of_bind. cbn.
  destruct (chat_history s); [reflexivity|].
  rewrite state_of_bind. cbn. destruct (first_text _); [|reflexivity].
  destruct (log_data _); reflexivity.
Qed.

Lemma setup_sidebar_exit i s :
  in_reset i = true -> exit_of (setup_sidebar i s) = Raise RerunException.
Proof. intros H. unfold setup_sidebar. run_script. cbn. rewrite H. reflexivity. Qed.

(** The states one run of the script can end in. *)
Lemma main_state i s :
  let sw := with_widgets i s in
  let s' := state_of (main i s) in
  s' = sw \/
  s' = state_of (reset (in_uuid i) sw) \/
  exists p, p <> "" /\
    (s' = after_user_turn sw p \/
     exists answer, answer <> "" /\
       s' = with_history sw
              (chat_history sw ++ [user_message_part p; model_message_part answer])
              (log_count sw + 1)).
Proof.
  cbv zeta. unfold main. rewrite state_of_bind.
  pose proof (setup_sidebar_state i s) as Hst.
  destruct (in_reset i) eqn:Hreset.
  { rewrite (setup_sidebar_exit i s Hreset). right; left. exact Hst. }
  rewrite Hst.
  destruct (exit_of (setup_sidebar i s)); [|left; reflexivity].
  destruct (in_client i) as [generate_content|]; [|left; reflexivity].
  rewrite state_of_bind. cbn [exit_of read fst state_of snd].
  rewrite state_of_bind. cbn [exit_of lift fst state_of snd].
  destruct (render_history _); [|left; reflexivity].
  destruct (handle_user_turn_state module_globals (in_uniform i)
              generate_content (in_prompt i) (with_widgets i s))
    as [[_ ->]|(p & _ & Hp & H)].
  - left. reflexivity.
  - right; right. exists p. split; [assumption|]. exact H.
Qed.

Lemma consistent_with_history s h n :
  n = model_turns h -> (exists rows, log_data h = Ok rows) ->
  consistent (with_history s h n).
Proof. intros Hn Hrows. split; assumption. Qed.

Lemma reachable_consistent s : reachable s -> consistent s.
Proof.
  induction 1 as [uuid|s i _ [Hcount [rows Hrows]]].
  - split; [reflexivity|]. exists []. reflexivity.
  - destruct (main_state i s) as [->|[->|(p & Hp & [->|(answer & Ha & ->)])]].
    + split; [exact Hcount|]. exists rows. exact Hrows.
    + split; [reflexivity|]. exists []. reflexivity.
    + apply consistent_with_history.
      * rewrite model_turns_user. exact Hcount.
      * eexists. eapply log_data_app; [exact Hrows|reflexivity].
    + apply consistent_with_history.
      * rewrite model_turns_user_model. cbn. rewrite Hcount. reflexivity.
      * eexists. eapply log_data_app; [exact Hrows|reflexivity].
Qed.

Section Attempts.
Variable globals : list string.
Variable uniform : Z -> Q.
Variable generate_content : Z -> call_result.

Local Abbreviation loop := (retry_loop globals uniform generate_content).

Lemma retry_loop_response attempt rest contents s response_text :
  generate_content attempt = Response response_text ->
  loop (attempt :: rest) contents s
  = (Ok response_text, s, [EvGenerateContent (selected_model s) contents]).
Proof. intros H. cbn [retry_loop]. rewrite H. reflexivity. Qed.

Lemma retry_loop_api_error attempt rest contents s e :
  generate_content attempt = RaiseAPIError e ->
  loop (attempt :: rest) contents s
  = (Ok (Some MSG_API), s, [EvGenerateContent (selected_model s) contents]).
Proof. intros H. cbn [retry_loop]. rewrite H. reflexivity. Qed.

Lemma retry_loop_exception attempt rest contents s e :
  generate_content attempt = RaiseException e ->
  loop (attempt :: rest) contents s
  = (Ok (Some MSG_UNKNOWN), s, [EvGenerateContent (selected_model s) contents]).
Proof. intros H. cbn [retry_loop]. rewrite H. reflexivity. Qed.

Lemma retry_loop_name_error attempt rest contents s :
  generate_content attempt = RaiseResourceExhaustedError ->
  attempt < MAX_RETRIES - 1 ->
  "random" ∉ globals ->
  loop (attempt :: rest) contents s
  = (Raise (NameError "random"), s,
     [EvGenerateContent (selected_model s) contents]).
Proof.
  intros H Hlt Hfree. cbn [retry_loop]. rewrite H.
  destruct (Z.ltb_spec attempt (MAX_RETRIES - 1)) as [_|]; [|lia].
  unfold wait_time. rewrite bool_decide_eq_false_2 by assumption.
  reflexivity.
Qed.

Lemma retry_loop_sleep attempt rest contents s :
  generate_content attempt = RaiseResourceExhaustedError ->
  attempt < MAX_RETRIES - 1 ->
  "random" ∈ globals ->
  loop (attempt :: rest) contents s
  = match loop rest contents s with
    | (r, s', t) =>
        (r, s', EvGenerateContent (selected_model s) contents
                :: EvSleep (inject_Z (2 ^ attempt) + uniform attempt) :: t)
    end.
Proof.
  intros H Hlt Hbound. cbn [retry_loop]. rewrite H.
  destruct (Z.ltb_spec attempt (MAX_RETRIES - 1)) as [_|]; [|lia].
  unfold wait_time. rewrite bool_decide_eq_true_2 by assumption.
  run_script.
  destruct (retry_loop _ _ _ rest contents s) as [[r s'] t]. reflexivity.
Qed.

Lemma retry_loop_exhausted attempt rest contents s :
  generate_content attempt = RaiseResourceExhaustedError ->
  MAX_RETRIES - 1 <= attempt ->
  loop (attempt :: rest) contents s
  = (Ok (Some MSG_BUSY), s, [EvGenerateContent (selected_model s) contents]).
Proof.
  intros H Hge. cbn [retry_loop]. rewrite H.
  destruct (Z.ltb_spec attempt (MAX_RETRIES - 1)) as [|_]; [lia|].
  reflexivity.
Qed.

End Attempts.

Lemma random_not_imported : "random" ∉ module_globals.
Proof. apply (bool_decide_unpack _). vm_compute. exact I. Qed.

Lemma record_response_trace response_text s :
  Forall (fun ev => is_to_csv ev = true)
    (trace_of (record_response response_text s)).
Proof.
  unfold record_response. destruct (truthy response_text); [|constructor].
  run_script. cbn. destruct (auto_record_csv s); [|constructor].
  cbn. destruct (log_data _); cbn; repeat constructor.
Qed.

Lemma record_response_logged answer s rows :
  answer <> "" ->
  log_data (chat_history s ++ [model_message_part answer]) = Ok rows ->
  record_response (Some answer) s
  = (Ok tt,
     with_history s (chat_history s ++ [model_message_part answer])
       (log_count s + 1),
     if auto_record_csv s
     then [EvToCsv ("chat_log_" +:+ session_id s +:+ "_auto.csv") rows]
     else []).
Proof.
  intros Ha Hrows. unfold record_response. rewrite (truthy_Some _ Ha).
  change (default "" (Some answer)) with answer.
  run_script. unfold with_history. cbn.
  destruct (auto_record_csv s); [|reflexivity].
  cbn. rewrite Hrows. reflexivity.
Qed.

Lemma record_response_falsy response_text s :
  truthy response_text = false ->
  record_response response_text s = (Ok tt, s, []).
Proof. intros H. unfold record_response. rewrite H. reflexivity. Qed.

(** ** The context window (C1, C8) *)

(** C1, as stated, fails at window length 0: on a transcript of one turn
    the slice [chat_history[-0:]] has one turn, not [min 1 0 = 0]. *)
Lemma context_window_zero_counterexample :
  exists w, build_context 0 one_turn_state = (Ok w, one_turn_state, []) /\
    Z.of_nat (length w)
    <> Z.min (Z.of_nat (length (chat_history one_turn_state))) 0.
Proof. eexists. split; [reflexivity|]. vm_compute. discriminate. Qed.

(** C1 (amended): for every transcript of N turns and every window length
    K >= 1, the slice [chat_history[-K:]] has length min(N, K), consists of
    the last min(N, K) turns in their order, and the step that builds it
    leaves the session state as it was and has no other effect. *)
Theorem context_window_last_turns (s : session_state) (K : Z) :
  1 <= K ->
  exists w,
    build_context K s = (Ok w, s, []) /\
    Z.of_nat (length w) = Z.min (Z.of_nat (length (chat_history s))) K /\
    w `suffix_of` chat_history s /\
    w = drop (length (chat_history s) - length w) (chat_history s).
Proof.
  intros HK. exists (context_for_api K (chat_history s)).
  split; [reflexivity|]. unfold context_for_api.
  pose proof (slice_from_neg_length K (chat_history s) HK) as Hlen.
  split; [exact Hlen|]. split; [apply slice_from_suffix|].
  rewrite slice_from_neg at 1 by assumption. f_equal. lia.
Qed.

Lemma context_window_last_turns_witness :
  1 <= MAX_HISTORY_PARTS /\
  exists w,
    build_context MAX_HISTORY_PARTS one_turn_state
    = (Ok w, one_turn_state, []) /\
    Z.of_nat (length w)
    = Z.min (Z.of_nat (length (chat_history one_turn_state))) MAX_HISTORY_PARTS /\
    w `suffix_of` chat_history one_turn_state /\
    w = drop (length (chat_history one_turn_state) - length w)
          (chat_history one_turn_state).
Proof.
  split; [vm_compute; discriminate|].
  apply (context_window_last_turns one_turn_state MAX_HISTORY_PARTS).
  vm_compute; discriminate.
Defined.

(** C8, as stated, fails on every non-empty transcript: with window length
    0 the slice of a one-turn transcript still holds that turn. *)
Lemma context_window_zero_nonempty_counterexample :
  context_for_api 0 (chat_history one_turn_state) = [user_message_part "hi"] /\
  context_for_api 0 (chat_history one_turn_state) <> [].
Proof. split; [reflexivity|discriminate]. Qed.

(** C8 (amended): with window length 0 the slice [chat_history[-0:]] is
    [chat_history[0:]], the whole transcript, so the window is empty only
    when the transcript is. *)
Theorem context_window_zero_is_whole (s : session_state) :
  build_context 0 s = (Ok (chat_history s), s, []) /\
  (context_for_api 0 (chat_history s) = [] <-> chat_history s = []).
Proof.
  assert (H : context_for_api 0 (chat_history s) = chat_history s)
    by apply slice_from_zero.
  split.
  - unfold build_context. run_script. rewrite H. reflexivity.
  - rewrite H. reflexivity.
Qed.

(** ** The retry loop (C2, C4) *)

(** C2: when every attempt is rate-limited, the handler of the first
    attempt raises [NameError] while computing the wait, because the name
    [random] is not bound in the module: one remote call, no sleep, and the
    exception leaves the loop. *)
Theorem rate_limited_attempt_raises_name_error
  (uniform : Z -> Q) (contents : list message) (s : session_state) :
  let r := retry_loop module_globals uniform remote_rate_limited
             (range MAX_RETRIES) contents s in
  r = (Raise (NameError "random"), s,
       [EvGenerateContent (selected_model s) contents]) /\
  remote_calls (trace_of r) = 1%nat /\
  sleeps (trace_of r) = 0%nat.
Proof.
  cbv zeta. change (range MAX_RETRIES) with [0; 1; 2].
  rewrite (retry_loop_name_error module_globals uniform remote_rate_limited
             0 [1; 2] contents s eq_refl eq_refl random_not_imported).
  repeat split.
Qed.

(** Were [random] bound, the same run would sleep after attempts 0 and 1
    only, for [2^i + jitter] seconds, and end with the service-busy text. *)
Lemma backoff_when_random_is_bound
  (globals : list string) (uniform : Z -> Q) (contents : list message)
  (s : session_state) :
  "random" ∈ globals ->
  (forall i : Z, (0 <= uniform i)%Q /\ (uniform i < 1)%Q) ->
  let call := EvGenerateContent (selected_model s) contents in
  let w0 := Qplus (inject_Z (2 ^ 0)) (uniform 0) in
  let w1 := Qplus (inject_Z (2 ^ 1)) (uniform 1) in
  retry_loop globals uniform remote_rate_limited (range MAX_RETRIES) contents s
  = (Ok (Some MSG_BUSY), s, [call; EvSleep w0; call; EvSleep w1; call]) /\
  (1 <= w0 /\ w0 < 2)%Q /\ (2 <= w1 /\ w1 < 3)%Q /\
  Qfloor w0 < Qfloor w1.
Proof.
  intros Hbound Hjitter. cbv zeta.
  change (range MAX_RETRIES) with [0; 1; 2].
  rewrite retry_loop_sleep by (reflexivity || assumption).
  rewrite retry_loop_sleep by (reflexivity || assumption).
  rewrite retry_loop_exhausted by (reflexivity || (vm_compute; discriminate)).
  split; [reflexivity|].
  destruct (Hjitter 0) as [H0 H0'], (Hjitter 1) as [H1 H1'].
  change (inject_Z (2 ^ 0)) with (inject_Z 1).
  change (inject_Z (2 ^ 1)) with (inject_Z 2).
  assert (Hw0 : (1 <= inject_Z 1 + uniform 0%Z /\ inject_Z 1 + uniform 0%Z < 2)%Q)
    by (change (inject_Z 1) with 1%Q; split; lra).
  assert (Hw1 : (2 <= inject_Z 2 + uniform 1%Z /\ inject_Z 2 + uniform 1%Z < 3)%Q)
    by (change (inject_Z 2) with 2%Q; split; lra).
  split; [exact Hw0|]. split; [exact Hw1|].
  apply Z.lt_le_trans with 2.
  - rewrite Zlt_Qlt. eapply Qle_lt_trans; [apply Qfloor_le|]. apply Hw0.
  - rewrite <- (Qfloor_Z 2). apply Qfloor_resp_le. apply Hw1.
Qed.

(** The turn as a whole, when the first attempt is rate-limited: the user
    message stays in the history, no model message is appended, and the
    script is left by the [NameError]. *)
Lemma rate_limited_turn_raises_name_error
  (uniform : Z -> Q) (generate_content : Z -> call_result)
  (p : string) (s : session_state) :
  p <> "" ->
  generate_content 0 = RaiseResourceExhaustedError ->
  handle_user_turn module_globals uniform generate_content (Some p) s
  = (Raise (NameError "random"), after_user_turn s p,
     [EvGenerateContent (selected_model s)
        (context_for_api MAX_HISTORY_PARTS
           (chat_history s ++ [user_message_part p]))]).
Proof.
  intros Hp Hlimited.
  rewrite handle_user_turn_accepted by assumption. cbv zeta.
  change (range MAX_RETRIES) with [0; 1; 2].
  rewrite (retry_loop_name_error module_globals uniform generate_content
             0 [1; 2] _ _ Hlimited eq_refl random_not_imported).
  reflexivity.
Qed.

(** With the module as written the loop never reaches a second attempt,
    whatever the remote does. *)
Lemma retry_loop_single_call
  (uniform : Z -> Q) (generate_content : Z -> call_result)
  (contents : list message) (s : session_state) :
  trace_of (retry_loop module_globals uniform generate_content
              (range MAX_RETRIES) contents s)
  = [EvGenerateContent (selected_model s) contents].
Proof.
  change (range MAX_RETRIES) with [0; 1; 2].
  destruct (generate_content 0) as [rt| |e|e] eqn:H.
  - rewrite (retry_loop_response _ _ _ _ _ _ _ _ H). reflexivity.
  - rewrite (retry_loop_name_error module_globals uniform generate_content
               0 [1; 2] contents s H eq_refl random_not_imported).
    reflexivity.
  - rewrite (retry_loop_api_error _ _ _ _ _ _ _ _ H). reflexivity.
  - rewrite (retry_loop_exception _ _ _ _ _ _ _ _ H). reflexivity.
Qed.

(** A first attempt that raises [APIError] or another [Exception] ends the
    loop at once. *)
Lemma retry_loop_fatal
  (globals : list string) (uniform : Z -> Q) (generate_content : Z -> call_result)
  (contents : list message) (s : session_state) :
  (exists e, generate_content 0 = RaiseAPIError e) \/
  (exists e, generate_content 0 = RaiseException e) ->
  retry_loop globals uniform generate_content (range MAX_RETRIES) contents s
  = (Ok (Some match generate_content 0 with
              | RaiseAPIError _ => MSG_API
              | _ => MSG_UNKNOWN
              end), s, [EvGenerateContent (selected_model s) contents]).
Proof.
  intros [[e He]|[e He]]; rewrite He;
    change (range MAX_RETRIES) with (0 :: [1; 2]).
  - apply (retry_loop_api_error _ _ _ _ _ _ _ _ He).
  - apply (retry_loop_exception _ _ _ _ _ _ _ _ He).
Qed.

(** C4: if the first attempt raises [APIError] or another [Exception], the
    loop ends after that one remote call, without sleeping, with the
    failure text of that handler as its result. *)
Theorem no_retry_on_api_or_unknown_error
  (globals : list string) (uniform : Z -> Q) (generate_content : Z -> call_result)
  (contents : list message) (s : session_state) :
  (exists e, generate_content 0 = RaiseAPIError e) \/
  (exists e, generate_content 0 = RaiseException e) ->
  let r := retry_loop globals uniform generate_content
             (range MAX_RETRIES) contents s in
  let msg := match generate_content 0 with
             | RaiseAPIError _ => MSG_API
             | _ => MSG_UNKNOWN
             end in
  r = (Ok (Some msg), s, [EvGenerateContent (selected_model s) contents]) /\
  remote_calls (trace_of r) = 1%nat /\
  sleeps (trace_of r) = 0%nat.
Proof.
  intros Hfail. cbv zeta. rewrite retry_loop_fatal by assumption.
  repeat split.
Qed.

Lemma no_retry_on_api_or_unknown_error_witness :
  ((exists e, remote_api_error 0 = RaiseAPIError e) \/
   (exists e, remote_api_error 0 = RaiseException e)) /\
  retry_loop module_globals half remote_api_error (range MAX_RETRIES)
    [user_message_part "hi"] sample_state
  = (Ok (Some MSG_API), sample_state,
     [EvGenerateContent "gemini-2.0-flash" [user_message_part "hi"]]).
Proof.
  assert (H : (exists e, remote_api_error 0 = RaiseAPIError e) \/
              (exists e, remote_api_error 0 = RaiseException e))
    by (left; exists "500"; reflexivity).
  split; [exact H|].
  exact (proj1 (no_retry_on_api_or_unknown_error module_globals half
                  remote_api_error [user_message_part "hi"] sample_state H)).
Defined.

(** ** Handling a user turn (C3, C5, C6, C9) *)

Section Turn.
Variable globals : list string.
Variable uniform : Z -> Q.
Variable generate_content : Z -> call_result.

Local Abbreviation handle := (handle_user_turn globals uniform generate_content).

(** The remote calls of an accepted turn: the first event is a call, and
    every call carries the slice of the history that already ends with the
    new user message. *)
Lemma handle_user_turn_calls p s :
  p <> "" ->
  let call := EvGenerateContent (selected_model s)
                (context_for_api MAX_HISTORY_PARTS
                   (chat_history s ++ [user_message_part p])) in
  (exists t, trace_of (handle (Some p) s) = call :: t) /\
  Forall (fun ev => is_generate ev = true -> ev = call)
    (trace_of (handle (Some p) s)).
Proof.
  intros Hp call.
  rewrite handle_user_turn_accepted by assumption. cbv zeta.
  set (s1 := after_user_turn s p).
  set (contents := context_for_api MAX_HISTORY_PARTS (chat_history s1)).
  destruct (retry_loop_first_call globals uniform generate_content
              0 [1; 2] contents s1) as [t' Hfirst].
  pose proof (retry_loop_trace globals uniform generate_content
                (range MAX_RETRIES) contents s1) as Hall.
  change (0 :: [1; 2]) with (range MAX_RETRIES) in Hfirst.
  assert (Hloop : Forall (fun ev => is_generate ev = true -> ev = call)
            (trace_of (retry_loop globals uniform generate_content
                         (range MAX_RETRIES) contents s1))).
  { eapply Forall_impl; [exact Hall|].
    intros ev [->|Hsleep] Hgen; [reflexivity|].
    destruct ev; discriminate. }
  destruct (retry_loop _ _ _ _ contents s1) as [[[rt|e] s1'] t].
  - cbn [trace_of snd] in Hfirst, Hloop. subst t.
    pose proof (record_response_trace rt s1) as Hrec.
    destruct (record_response rt s1) as [[[[]|e] s2] t2];
      cbn [trace_of snd] in *.
    + split; [eexists; reflexivity|].
      rewrite app_nil_r. apply Forall_app. split; [exact Hloop|].
      eapply Forall_impl; [exact Hrec|].
      intros ev Hcsv Hgen. destruct ev; discriminate.
    + split; [eexists; reflexivity|].
      apply Forall_app. split; [exact Hloop|].
      eapply Forall_impl; [exact Hrec|].
      intros ev Hcsv Hgen. destruct ev; discriminate.
  - cbn [trace_of snd] in *. subst t. split; [eexists; reflexivity|exact Hloop].
Qed.

Lemma handle_user_turn_prefix user_prompt s :
  chat_history s `prefix_of` chat_history (state_of (handle user_prompt s)).
Proof.
  
  destruct (handle_user_turn_state globals uniform generate_content
              user_prompt s) as [[_ ->]|(p & _ & _ & [->|(answer & _ & ->)])];
    cbn; [reflexivity|apply prefix_app_r; reflexivity..].
Qed.

Lemma handle_user_turn_keeps_prompt p s :
  p <> "" ->
  (chat_history s ++ [user_message_part p])
    `prefix_of` chat_history (state_of (handle (Some p) s)).
Proof.
  intros Hp. 
  destruct (handle_user_turn_state globals uniform generate_content
              (Some p) s) as [[Hf _]|(p' & [= <-] & _ & [->|(answer & _ & ->)])].
  - rewrite truthy_Some in Hf by assumption. discriminate.
  - reflexivity.
  - cbn. apply prefix_app. apply prefix_cons, prefix_nil.
Qed.

Lemma handle_user_turn_count user_prompt s :
  let s' := state_of (handle user_prompt s) in
  log_count s' - log_count s
  = model_turns (chat_history s') - model_turns (chat_history s).
Proof.
  cbv zeta.
  destruct (handle_user_turn_state globals uniform generate_content
              user_prompt s) as [[_ ->]|(p & _ & _ & [->|(answer & _ & ->)])];
    cbn.
  - lia.
  - rewrite model_turns_user. lia.
  - rewrite model_turns_user_model. lia.
Qed.

End Turn.

(** C3, as stated, fails for a blank prompt: ["   "] is a non-empty string,
    so the turn is appended and the remote call is made. *)
Lemma blank_prompt_counterexample :
  chat_history
    (state_of (handle_user_turn module_globals half remote_ok (Some "   ")
                 sample_state))
  <> chat_history sample_state /\
  remote_calls
    (trace_of (handle_user_turn module_globals half remote_ok (Some "   ")
                 sample_state)) = 1%nat.
Proof. split; [vm_compute; discriminate|reflexivity]. Qed.

(** C3 (amended): the empty string (like no submission at all) leaves the
    session state unchanged and performs no remote call; every non-empty
    prompt, blank ones included, is appended as a user turn and starts with
    a remote call. *)
Theorem empty_prompt_ignored_nonempty_accepted
  (globals : list string) (uniform : Z -> Q) (generate_content : Z -> call_result)
  (p : string) (s : session_state) :
  p <> "" ->
  handle_user_turn globals uniform generate_content (Some "") s = (Ok tt, s, []) /\
  handle_user_turn globals uniform generate_content None s = (Ok tt, s, []) /\
  (chat_history s ++ [user_message_part p])
    `prefix_of` chat_history
      (state_of (handle_user_turn globals uniform generate_content (Some p) s)) /\
  (1 <= remote_calls
          (trace_of (handle_user_turn globals uniform generate_content
                       (Some p) s)))%nat.
Proof.
  intros Hp. split; [reflexivity|]. split; [reflexivity|]. split.
  - apply handle_user_turn_keeps_prompt. exact Hp.
  - destruct (handle_user_turn_calls globals uniform generate_content p s Hp)
      as [[t ->] _].
    unfold remote_calls. rewrite filter_cons_True by exact I. cbn. lia.
Qed.

Lemma empty_prompt_ignored_nonempty_accepted_witness :
  "   " <> "" /\
  (chat_history sample_state ++ [user_message_part "   "])
    `prefix_of` chat_history
      (state_of (handle_user_turn module_globals half remote_ok (Some "   ")
                   sample_state)).
Proof.
  assert (H : "   " <> "") by discriminate.
  split; [exact H|].
  exact (proj1 (proj2 (proj2
    (empty_prompt_ignored_nonempty_accepted module_globals half remote_ok
       "   " sample_state H)))).
Defined.

(** C5, as stated, fails when the CSV checkbox is off: the failure text is
    appended as a model turn, but nothing is written to the log. *)
Lemma failure_not_logged_counterexample :
  chat_history
    (state_of (handle_user_turn module_globals half remote_api_error
                 (Some "hi") quiet_state))
  = [user_message_part "hi"; model_message_part MSG_API] /\
  csv_writes
    (trace_of (handle_user_turn module_globals half remote_api_error
                 (Some "hi") quiet_state)) = 0%nat.
Proof. split; reflexivity. Qed.

(** C5 (amended): when the call fails with [APIError] or another
    [Exception], the turn appends a model message holding the generic
    failure text of that handler, which names no error class, and the CSV
    log is written with the rows of the updated transcript exactly when
    [auto_record_csv] is on.  The hypothesis on [log_data] holds in every
    reachable state. *)
Theorem terminal_failure_recorded
  (globals : list string) (uniform : Z -> Q) (generate_content : Z -> call_result)
  (p : string) (s : session_state) (rows : list (string * string)) :
  p <> "" ->
  log_data (chat_history s) = Ok rows ->
  (exists e, generate_content 0 = RaiseAPIError e) \/
  (exists e, generate_content 0 = RaiseException e) ->
  let msg := match generate_content 0 with
             | RaiseAPIError _ => MSG_API
             | _ => MSG_UNKNOWN
             end in
  let r := handle_user_turn globals uniform generate_content (Some p) s in
  let rows' := rows ++ [("user", p); ("model", msg)] in
  chat_history (state_of r)
  = chat_history s ++ [user_message_part p; model_message_part msg] /\
  log_count (state_of r) = log_count s + 1 /\
  names_no_error_class msg = true /\
  log_data (chat_history (state_of r)) = Ok rows' /\
  trace_of r
  = EvGenerateContent (selected_model s)
      (context_for_api MAX_HISTORY_PARTS
         (chat_history s ++ [user_message_part p]))
    :: (if auto_record_csv s
        then [EvToCsv ("chat_log_" +:+ session_id s +:+ "_auto.csv") rows']
        else []).
Proof.
  intros Hp Hrows Hfail. cbv zeta.
  set (msg := match generate_content 0 with
              | RaiseAPIError _ => MSG_API
              | _ => MSG_UNKNOWN
              end).
  assert (Hmsg : msg <> "" /\ names_no_error_class msg = true).
  { subst msg. destruct Hfail as [[e ->]|[e ->]];
      (split; [discriminate|vm_compute; reflexivity]). }
  destruct Hmsg as [Hne Hnames].
  pose proof (retry_loop_fatal globals uniform generate_content
                (context_for_api MAX_HISTORY_PARTS
                   (chat_history (after_user_turn s p)))
                (after_user_turn s p) Hfail) as Hloop.
  fold msg in Hloop.
  assert (Hlog : log_data
            (chat_history (after_user_turn s p) ++ [model_message_part msg])
          = Ok (rows ++ [("user", p); ("model", msg)])).
  { cbn [after_user_turn with_history chat_history]. rewrite <- app_assoc.
    eapply log_data_app; [exact Hrows|reflexivity]. }
  rewrite handle_user_turn_accepted by assumption. cbv zeta.
  rewrite Hloop.
  rewrite (record_response_logged msg (after_user_turn s p) _ Hne Hlog).
  cbn [state_of trace_of fst snd after_user_turn with_history chat_history
         log_count auto_record_csv session_id selected_model].
  rewrite <- app_assoc. cbn [app].
  split; [reflexivity|]. split; [reflexivity|]. split; [exact Hnames|].
  split.
  - rewrite <- Hlog. cbn [after_user_turn with_history chat_history].
    rewrite <- app_assoc. reflexivity.
  - rewrite app_nil_r. reflexivity.
Qed.

Lemma terminal_failure_recorded_witness :
  "hi" <> "" /\
  log_data (chat_history sample_state) = Ok [] /\
  ((exists e, remote_api_error 0 = RaiseAPIError e) \/
   (exists e, remote_api_error 0 = RaiseException e)) /\
  chat_history
    (state_of (handle_user_turn module_globals half remote_api_error
                 (Some "hi") sample_state))
  = chat_history sample_state
    ++ [user_message_part "hi"; model_message_part MSG_API].
Proof.
  assert (H1 : "hi" <> "") by discriminate.
  assert (H2 : log_data (chat_history sample_state) = Ok []) by reflexivity.
  assert (H3 : (exists e, remote_api_error 0 = RaiseAPIError e) \/
               (exists e, remote_api_error 0 = RaiseException e))
    by (left; exists "500"; reflexivity).
  split; [exact H1|]. split; [exact H2|]. split; [exact H3|].
  exact (proj1 (terminal_failure_recorded module_globals half remote_api_error
                  "hi" sample_state [] H1 H2 H3)).
Defined.

(** C6: for every non-empty prompt the user message is in the history
    before the first remote call: every call of the turn carries a slice
    that ends with it.  Whatever the remote does afterwards, the message
    stays in the history at the position where it was appended. *)
Theorem user_turn_precedes_calls_and_survives
  (globals : list string) (uniform : Z -> Q) (generate_content : Z -> call_result)
  (p : string) (s : session_state) :
  p <> "" ->
  let r := handle_user_turn globals uniform generate_content (Some p) s in
  let h1 := chat_history s ++ [user_message_part p] in
  let call := EvGenerateContent (selected_model s)
                (context_for_api MAX_HISTORY_PARTS h1) in
  h1 `prefix_of` chat_history (state_of r) /\
  chat_history (state_of r) !! length (chat_history s)
  = Some (user_message_part p) /\
  last (context_for_api MAX_HISTORY_PARTS h1) = Some (user_message_part p) /\
  (exists t, trace_of r = call :: t) /\
  Forall (fun ev => is_generate ev = true -> ev = call) (trace_of r).
Proof.
  intros Hp. cbv zeta.
  assert (Hpre : (chat_history s ++ [user_message_part p])
            `prefix_of` chat_history
              (state_of (handle_user_turn globals uniform generate_content
                           (Some p) s)))
    by apply (handle_user_turn_keeps_prompt globals uniform
                generate_content p s Hp).
  split; [exact Hpre|]. split.
  - eapply prefix_lookup_Some; [|exact Hpre].
    rewrite lookup_app_r by lia. rewrite Nat.sub_diag. reflexivity.
  - split.
    + apply slice_from_neg_last. vm_compute; discriminate.
    + apply handle_user_turn_calls. exact Hp.
Qed.

Lemma user_turn_precedes_calls_and_survives_witness :
  "hi" <> "" /\
  (chat_history sample_state ++ [user_message_part "hi"])
    `prefix_of` chat_history
      (state_of (handle_user_turn module_globals half remote_rate_limited
                   (Some "hi") sample_state)).
Proof.
  assert (H : "hi" <> "") by discriminate.
  split; [exact H|].
  exact (proj1 (user_turn_precedes_calls_and_survives module_globals half
                  remote_rate_limited "hi" sample_state H)).
Defined.

(** C9: when the call returns a response whose text is empty or [None],
    the turn ends with only the user message appended: no model message,
    the counter unchanged, no CSV write. *)
Theorem empty_completion_not_recorded
  (globals : list string) (uniform : Z -> Q) (generate_content : Z -> call_result)
  (p : string) (s : session_state) (response_text : option string) :
  p <> "" ->
  generate_content 0 = Response response_text ->
  response_text = None \/ response_text = Some "" ->
  let r := handle_user_turn globals uniform generate_content (Some p) s in
  r = (Raise RerunException, after_user_turn s p,
       [EvGenerateContent (selected_model s)
          (context_for_api MAX_HISTORY_PARTS
             (chat_history s ++ [user_message_part p]))]) /\
  chat_history (state_of r) = chat_history s ++ [user_message_part p] /\
  log_count (state_of r) = log_count s /\
  csv_writes (trace_of r) = 0%nat.
Proof.
  intros Hp Hresp Hempty. cbv zeta.
  assert (Hfalsy : truthy response_text = false)
    by (destruct Hempty as [->| ->]; reflexivity).
  rewrite handle_user_turn_accepted by assumption. cbv zeta.
  change (range MAX_RETRIES) with (0 :: [1; 2]).
  rewrite (retry_loop_response _ _ _ _ _ _ _ _ Hresp).
  rewrite record_response_falsy by assumption.
  repeat split.
Qed.

Lemma empty_completion_not_recorded_witness :
  "hi" <> "" /\
  remote_empty 0 = Response (Some "") /\
  (Some "" = None \/ Some "" = Some "") /\
  chat_history
    (state_of (handle_user_turn module_globals half remote_empty (Some "hi")
                 sample_state))
  = chat_history sample_state ++ [user_message_part "hi"].
Proof.
  assert (H1 : "hi" <> "") by discriminate.
  assert (H2 : remote_empty 0 = Response (Some "")) by reflexivity.
  assert (H3 : Some "" = None \/ Some "" = Some "") by (right; reflexivity).
  split; [exact H1|]. split; [exact H2|]. split; [exact H3|].
  exact (proj1 (proj2 (empty_completion_not_recorded module_globals half
                         remote_empty "hi" sample_state (Some "") H1 H2 H3))).
Defined.

(** ** Sequences of turns and reachable states (C7, C10) *)

Lemma run_turns_app globals turns1 turns2 s :
  run_turns globals (turns1 ++ turns2) s
  = run_turns globals turns2 (run_turns globals turns1 s).
Proof.
  revert s. induction turns1 as [|t turns1 IH]; intros s; [reflexivity|].
  cbn. apply IH.
Qed.

Lemma run_turns_prefix globals turns s :
  chat_history s `prefix_of` chat_history (run_turns globals turns s).
Proof.
  revert s. induction turns as [|t turns IH]; intros s; [reflexivity|].
  cbn. etrans; [|apply IH]. apply handle_user_turn_prefix.
Qed.

(** C7: along any sequence of turns, whatever each remote call does, the
    history after a longer run extends the history after a shorter one: its
    length does not decrease and every message already stored keeps its
    position, role and text. *)
Theorem transcript_append_only
  (globals : list string) (turns1 turns2 : list turn_input) (s : session_state) :
  let h1 := chat_history (run_turns globals turns1 s) in
  let h2 := chat_history (run_turns globals (turns1 ++ turns2) s) in
  h1 `prefix_of` h2 /\
  (length h1 <= length h2)%nat /\
  forall (i : nat) (m : message), h1 !! i = Some m -> h2 !! i = Some m.
Proof.
  cbv zeta. rewrite run_turns_app.
  pose proof (run_turns_prefix globals turns2 (run_turns globals turns1 s))
    as Hpre.
  split; [exact Hpre|]. split; [apply prefix_length; exact Hpre|].
  intros i m Hi. eapply prefix_lookup_Some; eassumption.
Qed.

(** C10: in every state the application reaches, [log_count] is the number
    of model messages in the history; a turn raises the counter by exactly
    the number of model messages it appends; the reset empties the history
    and zeroes the counter. *)
Theorem log_count_counts_model_turns (s : session_state) :
  reachable s ->
  log_count s = model_turns (chat_history s) /\
  (forall globals uniform generate_content user_prompt,
     let s' := state_of (handle_user_turn globals uniform generate_content
                           user_prompt s) in
     log_count s' - log_count s
     = model_turns (chat_history s') - model_turns (chat_history s)) /\
  (forall uuid,
     chat_history (state_of (reset uuid s)) = [] /\
     log_count (state_of (reset uuid s)) = 0).
Proof.
  intros Hs. split; [apply (reachable_consistent s Hs)|]. split.
  - intros. apply handle_user_turn_count.
  - intros uuid. split; reflexivity.
Qed.

Lemma log_count_counts_model_turns_witness :
  reachable (state_of (main sample_run sample_state)) /\
  log_count (state_of (main sample_run sample_state))
  = model_turns (chat_history (state_of (main sample_run sample_state))).
Proof.
  assert (H : reachable (state_of (main sample_run sample_state)))
    by (apply reachable_run, reachable_initial).
  split; [exact H|].
  exact (proj1 (log_count_counts_model_turns _ H)).
Defined.

(** * Further properties of the script *)

(** ** The retry loop and the turn *)

(** X1: whatever the remote does and whether or not [random] resolves, the
    loop makes at least one and at most [MAX_RETRIES] remote calls, sleeps
    strictly fewer times than it calls, and writes no log. *)
Theorem retry_loop_call_bounds
  (globals : list string) (uniform : Z -> Q) (generate_content : Z -> call_result)
  (contents : list message) (s : session_state) :
  let t := trace_of (retry_loop globals uniform generate_content
                       (range MAX_RETRIES) contents s) in
  (1 <= remote_calls t)%nat /\
  (remote_calls t <= Z.to_nat MAX_RETRIES)%nat /\
  (sleeps t < remote_calls t)%nat /\
  csv_writes t = 0%nat.
Proof.
  cbv zeta. change (range MAX_RETRIES) with [0; 1; 2].
  destruct (decide ("random" ∈ globals)) as [Hin|Hout].
  - destruct (generate_content 0) eqn:H0;
      [rewrite (retry_loop_response _ _ _ _ _ _ _ _ H0)
      |rewrite retry_loop_sleep by first [eassumption|reflexivity]
      |rewrite (retry_loop_api_error _ _ _ _ _ _ _ _ H0)
      |rewrite (retry_loop_exception _ _ _ _ _ _ _ _ H0)];
      try (vm_compute; repeat split; lia).
    destruct (generate_content 1) eqn:H1;
      [rewrite (retry_loop_response _ _ _ _ _ _ _ _ H1)
      |rewrite retry_loop_sleep by first [eassumption|reflexivity]
      |rewrite (retry_loop_api_error _ _ _ _ _ _ _ _ H1)
      |rewrite (retry_loop_exception _ _ _ _ _ _ _ _ H1)];
      try (vm_compute; repeat split; lia).
    destruct (generate_content 2) eqn:H2;
      [rewrite (retry_loop_response _ _ _ _ _ _ _ _ H2)
      |rewrite retry_loop_exhausted by first [eassumption|vm_compute; discriminate]
      |rewrite (retry_loop_api_error _ _ _ _ _ _ _ _ H2)
      |rewrite (retry_loop_exception _ _ _ _ _ _ _ _ H2)];
      vm_compute; repeat split; lia.
  - destruct (generate_content 0) eqn:H0;
      [rewrite (retry_loop_response _ _ _ _ _ _ _ _ H0)
      |rewrite retry_loop_name_error by first [eassumption|reflexivity]
      |rewrite (retry_loop_api_error _ _ _ _ _ _ _ _ H0)
      |rewrite (retry_loop_exception _ _ _ _ _ _ _ _ H0)];
      vm_compute; repeat split; lia.
Qed.

Lemma csv_writes_app t1 t2 : csv_writes (t1 ++ t2) = (csv_writes t1 + csv_writes t2)%nat.
Proof. unfold csv_writes. rewrite filter_app, length_app. reflexivity. Qed.

Lemma retry_loop_no_csv globals uniform generate_content attempts contents s :
  csv_writes (trace_of (retry_loop globals uniform generate_content
                          attempts contents s)) = 0%nat.
Proof.
  pose proof (retry_loop_trace globals uniform generate_content attempts
                contents s) as Hall.
  induction Hall as [|ev t [->|Hsleep] _ IH]; [reflexivity|exact IH|].
  destruct ev; try discriminate. exact IH.
Qed.

Lemma record_response_csv response_text s :
  csv_writes (trace_of (record_response response_text s)) = 0%nat \/
  (csv_writes (trace_of (record_response response_text s)) = 1%nat /\
   auto_record_csv s = true /\ truthy response_text = true).
Proof.
  unfold record_response. destruct (truthy response_text); [|left; reflexivity].
  run_script. cbn. destruct (auto_record_csv s); [|left; reflexivity].
  cbn. destruct (log_data _); [right|left]; repeat split.
Qed.

Lemma handle_user_turn_answered
  (globals : list string) (uniform : Z -> Q) (generate_content : Z -> call_result)
  (p answer : string) (s : session_state) (rows : list (string * string)) :
  p <> "" ->
  answer <> "" ->
  generate_content 0 = Response (Some answer) ->
  log_data (chat_history s) = Ok rows ->
  handle_user_turn globals uniform generate_content (Some p) s
  = (Raise RerunException,
     with_history s
       (chat_history s ++ [user_message_part p; model_message_part answer])
       (log_count s + 1),
     EvGenerateContent (selected_model s)
       (context_for_api MAX_HISTORY_PARTS
          (chat_history s ++ [user_message_part p]))
     :: (if auto_record_csv s
         then [EvToCsv ("chat_log_" +:+ session_id s +:+ "_auto.csv")
                 (rows ++ [("user", p); ("model", answer)])]
         else [])).
Proof.
  intros Hp Ha Hresp Hrows.
  assert (Hlog : log_data
            (chat_history (after_user_turn s p) ++ [model_message_part answer])
          = Ok (rows ++ [("user", p); ("model", answer)])).
  { cbn [after_user_turn with_history chat_history]. rewrite <- app_assoc.
    eapply log_data_app; [exact Hrows|reflexivity]. }
  rewrite handle_user_turn_accepted by assumption. cbv zeta.
  change (range MAX_RETRIES) with (0 :: [1; 2]).
  rewrite (retry_loop_response _ _ _ _ _ _ _ _ Hresp).
  rewrite (record_response_logged answer (after_user_turn s p) _ Ha Hlog).
  cbn [after_user_turn with_history chat_history log_count auto_record_csv
         session_id selected_model].
  rewrite <- app_assoc, app_nil_r. reflexivity.
Qed.

(** X2: a non-empty completion returned by the first attempt is appended
    after the user message as a model message, the counter goes up by one,
    the run ends by the rerun, and the trace is the one remote call followed,
    when [auto_record_csv] is on, by one CSV write whose rows are those of
    the updated history. *)
Theorem successful_completion_recorded
  (globals : list string) (uniform : Z -> Q) (generate_content : Z -> call_result)
  (p answer : string) (s : session_state) (rows : list (string * string)) :
  p <> "" ->
  answer <> "" ->
  generate_content 0 = Response (Some answer) ->
  log_data (chat_history s) = Ok rows ->
  handle_user_turn globals uniform generate_content (Some p) s
  = (Raise RerunException,
     with_history s
       (chat_history s ++ [user_message_part p; model_message_part answer])
       (log_count s + 1),
     EvGenerateContent (selected_model s)
       (context_for_api MAX_HISTORY_PARTS
          (chat_history s ++ [user_message_part p]))
     :: (if auto_record_csv s
         then [EvToCsv ("chat_log_" +:+ session_id s +:+ "_auto.csv")
                 (rows ++ [("user", p); ("model", answer)])]
         else [])).
Proof.
  intros Hp Ha Hresp Hrows.
  apply handle_user_turn_answered; assumption.
Qed.

Lemma successful_completion_recorded_witness :
  "hi" <> "" /\ "ok" <> "" /\
  remote_ok 0 = Response (Some "ok") /\
  log_data (chat_history sample_state) = Ok [] /\
  handle_user_turn module_globals half remote_ok (Some "hi") sample_state
  = (Raise RerunException,
     with_history sample_state
       [user_message_part "hi"; model_message_part "ok"] 1,
     [EvGenerateContent "gemini-2.0-flash" [user_message_part "hi"];
      EvToCsv "chat_log_session-1_auto.csv" [("user", "hi"); ("model", "ok")]]).
Proof.
  assert (H1 : "hi" <> "") by discriminate.
  assert (H2 : "ok" <> "") by discriminate.
  assert (H3 : remote_ok 0 = Response (Some "ok")) by reflexivity.
  assert (H4 : log_data (chat_history sample_state) = Ok []) by reflexivity.
  split; [exact H1|]. split; [exact H2|]. split; [exact H3|]. split; [exact H4|].
  exact (successful_completion_recorded module_globals half remote_ok
           "hi" "ok" sample_state [] H1 H2 H3 H4).
Defined.

(** X3: a turn writes the CSV log at most once, and only when
    [auto_record_csv] is on and a model message was appended in the same
    turn (the counter went up by one). *)
Theorem csv_written_only_with_answer
  (globals : list string) (uniform : Z -> Q) (generate_content : Z -> call_result)
  (user_prompt : option string) (s : session_state) :
  let r := handle_user_turn globals uniform generate_content user_prompt s in
  csv_writes (trace_of r) = 0%nat \/
  (csv_writes (trace_of r) = 1%nat /\
   auto_record_csv s = true /\
   log_count (state_of r) = log_count s + 1 /\
   exists answer, answer <> "" /\
     last (chat_history (state_of r)) = Some (model_message_part answer)).
Proof.
  cbv zeta. destruct (truthy user_prompt) eqn:Ht.
  2: { left. rewrite handle_user_turn_rejected by assumption. reflexivity. }
  destruct (truthy_inv _ Ht) as (p & -> & Hp).
  rewrite handle_user_turn_accepted by assumption. cbv zeta.
  set (s1 := after_user_turn s p).
  set (contents := context_for_api MAX_HISTORY_PARTS (chat_history s1)).
  pose proof (retry_loop_no_csv globals uniform generate_content
                (range MAX_RETRIES) contents s1) as Hloop.
  destruct (retry_loop _ _ _ _ contents s1) as [[[rt|e] s1'] t];
    cbn [trace_of snd] in Hloop; [|left; exact Hloop].
  pose proof (record_response_csv rt s1) as Hrec.
  pose proof (record_response_state rt s1) as Hst.
  destruct (record_response rt s1) as [[r2 s2] t2].
  cbn [trace_of state_of fst snd] in Hrec, Hst.
  assert (Htrace : csv_writes (trace_of
            (match r2 with
             | Ok _ => (@Raise unit RerunException, s2, t ++ t2 ++ [])
             | Raise e => (Raise e, s2, t ++ t2) end)) = csv_writes t2).
  { destruct r2; cbn [trace_of snd]; rewrite ?app_nil_r, csv_writes_app; lia. }
  assert (Hstate : state_of
            (match r2 with
             | Ok _ => (@Raise unit RerunException, s2, t ++ t2 ++ [])
             | Raise e => (Raise e, s2, t ++ t2) end) = s2)
    by (destruct r2; reflexivity).
  rewrite Htrace, Hstate.
  destruct Hrec as [H0|(H1 & Hauto & Hrt)]; [left; exact H0|right].
  rewrite Hrt in Hst. subst s2.
  destruct (truthy_inv _ Hrt) as (answer & -> & Ha).
  split; [exact H1|]. split; [exact Hauto|]. split; [reflexivity|].
  exists answer. split; [exact Ha|]. cbn. apply last_snoc.
Qed.

(** ** What the remote model is sent *)

(** X4: every remote call of an accepted turn carries the selected model and
    a suffix of the history that already holds the new user message, of
    length min(N + 1, 12) for a previous history of N messages: never empty
    and never more than [MAX_HISTORY_PARTS] messages. *)
Theorem remote_context_bounded
  (globals : list string) (uniform : Z -> Q) (generate_content : Z -> call_result)
  (p : string) (s : session_state) :
  p <> "" ->
  Forall (fun ev =>
            match ev with
            | EvGenerateContent model contents =>
                model = selected_model s /\
                contents `suffix_of` (chat_history s ++ [user_message_part p]) /\
                Z.of_nat (length contents)
                = Z.min (Z.of_nat (length (chat_history s)) + 1) MAX_HISTORY_PARTS /\
                (1 <= length contents <= 12)%nat
            | _ => True
            end)
    (trace_of (handle_user_turn globals uniform generate_content (Some p) s)).
Proof.
  intros Hp.
  destruct (handle_user_turn_calls globals uniform generate_content p s Hp)
    as [_ Hall].
  eapply Forall_impl; [exact Hall|]. intros ev Hev.
  destruct ev as [model contents| |]; [|exact I..].
  specialize (Hev eq_refl). injection Hev as -> ->.
  split; [reflexivity|]. split; [apply slice_from_suffix|].
  pose proof (slice_from_neg_length MAX_HISTORY_PARTS
                (chat_history s ++ [user_message_part p])
                ltac:(vm_compute; discriminate)) as Hlen.
  fold (context_for_api MAX_HISTORY_PARTS
          (chat_history s ++ [user_message_part p])) in Hlen.
  rewrite length_app in Hlen. cbn [length] in Hlen.
  change MAX_HISTORY_PARTS with 12 in *. lia.
Qed.

Lemma remote_context_bounded_witness :
  "hi" <> "" /\
  Forall (fun ev =>
            match ev with
            | EvGenerateContent model contents =>
                model = selected_model sample_state /\
                contents
                  `suffix_of` (chat_history sample_state ++ [user_message_part "hi"]) /\
                Z.of_nat (length contents)
                = Z.min (Z.of_nat (length (chat_history sample_state)) + 1)
                    MAX_HISTORY_PARTS /\
                (1 <= length contents <= 12)%nat
            | _ => True
            end)
    (trace_of (handle_user_turn module_globals half remote_ok (Some "hi")
                 sample_state)).
Proof.
  assert (H : "hi" <> "") by discriminate.
  split; [exact H|].
  exact (remote_context_bounded module_globals half remote_ok "hi"
           sample_state H).
Defined.

(** X5: while the history holds fewer than 12 messages, the remote call of a
    new turn is sent the whole history followed by the new user message. *)
Theorem short_history_sent_whole
  (globals : list string) (uniform : Z -> Q) (generate_content : Z -> call_result)
  (p : string) (s : session_state) :
  p <> "" ->
  (length (chat_history s) < 12)%nat ->
  exists t,
    trace_of (handle_user_turn globals uniform generate_content (Some p) s)
    = EvGenerateContent (selected_model s)
        (chat_history s ++ [user_message_part p]) :: t.
Proof.
  intros Hp Hshort.
  destruct (handle_user_turn_calls globals uniform generate_content p s Hp)
    as [[t Ht] _].
  exists t. rewrite Ht. do 2 f_equal.
  unfold context_for_api. rewrite slice_from_neg by (vm_compute; discriminate).
  rewrite length_app. cbn [length]. change MAX_HISTORY_PARTS with 12.
  replace (length (chat_history s) + 1
           - Z.to_nat (Z.min (Z.of_nat (length (chat_history s) + 1)) 12))%nat
    with 0%nat by lia.
  reflexivity.
Qed.

Lemma short_history_sent_whole_witness :
  "again" <> "" /\
  (length (chat_history one_turn_state) < 12)%nat /\
  exists t,
    trace_of (handle_user_turn module_globals half remote_ok (Some "again")
                one_turn_state)
    = EvGenerateContent (selected_model one_turn_state)
        (chat_history one_turn_state ++ [user_message_part "again"]) :: t.
Proof.
  assert (H1 : "again" <> "") by discriminate.
  assert (H2 : (length (chat_history one_turn_state) < 12)%nat)
    by (vm_compute; lia).
  split; [exact H1|]. split; [exact H2|].
  exact (short_history_sent_whole module_globals half remote_ok "again"
           one_turn_state H1 H2).
Defined.

Lemma exchanges_app turns1 turns2 :
  exchanges (turns1 ++ turns2) = exchanges turns1 ++ exchanges turns2.
Proof.
  induction turns1 as [|[p a] turns1 IH]; [reflexivity|].
  cbn. rewrite IH. reflexivity.
Qed.

Lemma exchanges_length turns :
  length (exchanges turns) = (2 * length turns)%nat.
Proof.
  induction turns as [|[p a] turns IH]; [reflexivity|]. cbn. lia.
Qed.

(** X6: after six or more complete exchanges the window cuts an exchange in
    two: the context sent for a new prompt starts with the model's answer of
    the sixth-last exchange, without the prompt it answered, and goes on
    with the last five exchanges and the new prompt. *)
Theorem window_starts_with_model_message
  (older : list (string * string)) (p0 answer0 : string)
  (recent : list (string * string)) (p : string) :
  length recent = 5%nat ->
  context_for_api MAX_HISTORY_PARTS
    (exchanges (older ++ (p0, answer0) :: recent) ++ [user_message_part p])
  = model_message_part answer0 :: exchanges recent ++ [user_message_part p].
Proof.
  intros Hrecent. unfold context_for_api.
  rewrite slice_from_neg by (vm_compute; discriminate).
  rewrite exchanges_app. cbn [exchanges].
  rewrite <- !app_assoc. cbn [app].
  rewrite !length_app. cbn [length]. rewrite !length_app. cbn [length].
  rewrite !exchanges_length, Hrecent. change MAX_HISTORY_PARTS with 12.
  replace (2 * length older + S (S (2 * 5 + 1))
           - Z.to_nat (Z.min (Z.of_nat (2 * length older + S (S (2 * 5 + 1)))) 12))%nat
    with (length (exchanges older) + 1)%nat
    by (rewrite exchanges_length; lia).
  rewrite drop_app_add. reflexivity.
Qed.

Lemma window_starts_with_model_message_witness :
  length [("p2", "a2"); ("p3", "a3"); ("p4", "a4"); ("p5", "a5"); ("p6", "a6")]
  = 5%nat /\
  context_for_api MAX_HISTORY_PARTS
    (exchanges ([] ++ ("p1", "a1")
                  :: [("p2", "a2"); ("p3", "a3"); ("p4", "a4"); ("p5", "a5");
                      ("p6", "a6")])
     ++ [user_message_part "p7"])
  = model_message_part "a1"
    :: exchanges [("p2", "a2"); ("p3", "a3"); ("p4", "a4"); ("p5", "a5");
                  ("p6", "a6")]
    ++ [user_message_part "p7"].
Proof.
  split; [reflexivity|].
  apply (window_starts_with_model_message [] "p1" "a1"
           [("p2", "a2"); ("p3", "a3"); ("p4", "a4"); ("p5", "a5"); ("p6", "a6")]
           "p7").
  reflexivity.
Defined.

(** ** Shape of the history in reachable states *)

Lemma turns_shape_forms h :
  turns_shape h ->
  forall (i : nat) (m : message), h !! i = Some m ->
    exists t, t <> "" /\ (m = user_message_part t \/ m = model_message_part t).
Proof.
  induction 1 as [|h p Hh IH Hp|h p answer Hh IH Hp Ha]; intros i m Hi.
  - discriminate.
  - destruct (decide (i < length h)%nat) as [Hlt|Hge].
    + rewrite lookup_app_l in Hi by assumption. eauto.
    + rewrite lookup_app_r in Hi by lia.
      destruct (i - length h)%nat as [|[|k]]; cbn in Hi; [|discriminate..].
      injection Hi as <-. eauto.
  - destruct (decide (i < length h)%nat) as [Hlt|Hge].
    + rewrite lookup_app_l in Hi by assumption. eauto.
    + rewrite lookup_app_r in Hi by lia.
      destruct (i - length h)%nat as [|[|k]]; cbn in Hi; [| |discriminate].
      * injection Hi as <-. eauto.
      * injection Hi as <-. eauto.
Qed.

Lemma turns_shape_model_after_user h :
  turns_shape h ->
  forall (i : nat) (m : message), h !! i = Some m -> role m = "model" ->
    exists (j : nat) (p : string),
      i = S j /\ h !! j = Some (user_message_part p).
Proof.
  induction 1 as [|h p Hh IH Hp|h p answer Hh IH Hp Ha]; intros i m Hi Hrole.
  - discriminate.
  - destruct (decide (i < length h)%nat) as [Hlt|Hge].
    + rewrite lookup_app_l in Hi by assumption.
      destruct (IH i m Hi Hrole) as (j & q & -> & Hj).
      exists j, q. split; [reflexivity|]. apply lookup_app_l_Some. exact Hj.
    + rewrite lookup_app_r in Hi by lia.
      destruct (i - length h)%nat as [|[|k]]; cbn in Hi; [|discriminate..].
      injection Hi as <-. discriminate.
  - destruct (decide (i < length h)%nat) as [Hlt|Hge].
    + rewrite lookup_app_l in Hi by assumption.
      destruct (IH i m Hi Hrole) as (j & q & -> & Hj).
      exists j, q. split; [reflexivity|]. apply lookup_app_l_Some. exact Hj.
    + rewrite lookup_app_r in Hi by lia.
      destruct (i - length h)%nat as [|[|k]] eqn:Hk; cbn in Hi; [| |discriminate].
      * injection Hi as <-. discriminate.
      * exists (length h), p. split; [lia|].
        rewrite lookup_app_r by lia. rewrite Nat.sub_diag. reflexivity.
Qed.

Lemma user_turns_app h1 h2 :
  user_turns (h1 ++ h2) = user_turns h1 + user_turns h2.
Proof. unfold user_turns. rewrite filter_app, length_app. lia. Qed.

Lemma turns_shape_counts h :
  turns_shape h ->
  Z.of_nat (length h) = user_turns h + model_turns h /\
  0 <= model_turns h <= user_turns h.
Proof.
  induction 1 as [|h p Hh IH Hp|h p answer Hh IH Hp Ha].
  - split; [reflexivity|]. vm_compute. split; discriminate.
  - rewrite length_app, user_turns_app, model_turns_app.
    change (user_turns [_]) with 1. change (model_turns [_]) with 0.
    cbn [length]. lia.
  - rewrite length_app, user_turns_app, model_turns_app.
    change (user_turns [_; _]) with 1. change (model_turns [_; _]) with 1.
    cbn [length]. lia.
Qed.

Lemma reachable_turns_shape s : reachable s -> turns_shape (chat_history s).
Proof.
  induction 1 as [uuid|s i _ IH]; [constructor|].
  destruct (main_state i s) as [->|[->|(p & Hp & [->|(answer & Ha & ->)])]].
  - exact IH.
  - constructor.
  - apply shape_user; assumption.
  - apply shape_exchange; assumption.
Qed.

(** X7: in every state the application reaches, each stored message is a
    user or a model message with a single non-empty text, the first message
    is never a model message, and every model message directly follows a
    user message. *)
Theorem reachable_history_shape (s : session_state) :
  reachable s ->
  turns_shape (chat_history s) /\
  (forall (i : nat) (m : message), chat_history s !! i = Some m ->
     exists t, t <> "" /\
       (m = user_message_part t \/ m = model_message_part t)) /\
  (forall (i : nat) (m : message), chat_history s !! i = Some m ->
     role m = "model" ->
     exists (j : nat) (p : string),
       i = S j /\ chat_history s !! j = Some (user_message_part p)).
Proof.
  intros Hs. pose proof (reachable_turns_shape s Hs) as Hshape.
  split; [exact Hshape|]. split.
  - apply turns_shape_forms. exact Hshape.
  - apply turns_shape_model_after_user. exact Hshape.
Qed.

Lemma reachable_history_shape_witness :
  reachable (state_of (main sample_run sample_state)) /\
  turns_shape (chat_history (state_of (main sample_run sample_state))).
Proof.
  assert (H : reachable (state_of (main sample_run sample_state)))
    by (apply reachable_run, reachable_initial).
  split; [exact H|].
  exact (proj1 (reachable_history_shape _ H)).
Defined.

(** X8: in every state the application reaches, the history holds as many
    messages as user turns plus [log_count], and [log_count] is between 0
    and the number of user turns: no answer without a prompt, at most one
    answer per prompt. *)
Theorem reachable_history_counts (s : session_state) :
  reachable s ->
  Z.of_nat (length (chat_history s)) = user_turns (chat_history s) + log_count s /\
  0 <= log_count s <= user_turns (chat_history s).
Proof.
  intros Hs.
  destruct (reachable_consistent s Hs) as [-> _].
  apply turns_shape_counts, reachable_turns_shape, Hs.
Qed.

Lemma reachable_history_counts_witness :
  reachable (state_of (main sample_run sample_state)) /\
  Z.of_nat (length (chat_history (state_of (main sample_run sample_state))))
  = user_turns (chat_history (state_of (main sample_run sample_state)))
    + log_count (state_of (main sample_run sample_state)).
Proof.
  assert (H : reachable (state_of (main sample_run sample_state)))
    by (apply reachable_run, reachable_initial).
  split; [exact H|].
  exact (proj1 (reachable_history_counts _ H)).
Defined.

(** ** Whole runs of the script *)

Lemma exit_of_bind {A B : Type} (m : M A) (f : A -> M B) s :
  exit_of ((m ≫= f) s) =
    match exit_of (m s) with
    | Ok a => exit_of (f a (state_of (m s)))
    | Raise e => Raise e
    end.
Proof.
  unfold mbind, M_bind, state_of, exit_of.
  destruct (m s) as [[[a|e] s1] t1]; cbn; [|reflexivity].
  destruct (f a s1) as [[r s2] t2]. reflexivity.
Qed.

Lemma trace_of_bind {A B : Type} (m : M A) (f : A -> M B) s :
  trace_of ((m ≫= f) s) =
    match exit_of (m s) with
    | Ok a => trace_of (m s) ++ trace_of (f a (state_of (m s)))
    | Raise _ => trace_of (m s)
    end.
Proof.
  unfold mbind, M_bind, state_of, exit_of, trace_of.
  destruct (m s) as [[[a|e] s1] t1]; cbn; [|reflexivity].
  destruct (f a s1) as [[r s2] t2]. reflexivity.
Qed.

Lemma render_history_log_data h rows :
  log_data h = Ok rows -> render_history h = Ok tt.
Proof.
  revert rows. induction h as [|m h IH]; intros rows Hrows; [reflexivity|].
  cbn in *. destruct (first_text m); [|discriminate].
  destruct (log_data h) as [rows'|]; [|discriminate]. eauto.
Qed.

Lemma setup_sidebar_trace i s : trace_of (setup_sidebar i s) = [].
Proof.
  unfold setup_sidebar. run_script. cbn.
  destruct (in_reset i); [reflexivity|]. cbn.
  destruct (chat_history s); [reflexivity|].
  cbn. destruct (first_text _); [|reflexivity].
  destruct (log_data _); reflexivity.
Qed.

Lemma setup_sidebar_ok i s rows :
  in_reset i = false ->
  log_data (chat_history s) = Ok rows ->
  exit_of (setup_sidebar i s) = Ok tt.
Proof.
  intros Hreset Hrows. unfold setup_sidebar. run_script. cbn.
  rewrite Hreset. cbn. destruct (chat_history s) as [|m h] eqn:Hh; [reflexivity|].
  run_script. rewrite Hrows. reflexivity.
Qed.

Lemma record_response_ok response_text s rows :
  log_data (chat_history s) = Ok rows ->
  exists s2 t2, record_response response_text s = (Ok tt, s2, t2).
Proof.
  intros Hrows. destruct (truthy response_text) eqn:Ht.
  - destruct (truthy_inv _ Ht) as (answer & -> & Ha).
    assert (Hlog : log_data (chat_history s ++ [model_message_part answer])
                   = Ok (rows ++ [("model", answer)]))
      by (eapply log_data_app; [exact Hrows|reflexivity]).
    rewrite (record_response_logged answer s _ Ha Hlog). eauto.
  - rewrite record_response_falsy by assumption. eauto.
Qed.

Lemma handle_user_turn_exit uniform generate_content p s rows :
  p <> "" ->
  log_data (chat_history s) = Ok rows ->
  exit_of (handle_user_turn module_globals uniform generate_content (Some p) s)
  = match generate_content 0 with
    | RaiseResourceExhaustedError => Raise (NameError "random")
    | _ => Raise RerunException
    end.
Proof.
  intros Hp Hrows.
  assert (Hlog : log_data (chat_history (after_user_turn s p))
                 = Ok (rows ++ [("user", p)]))
    by (eapply log_data_app; [exact Hrows|reflexivity]).
  rewrite handle_user_turn_accepted by assumption. cbv zeta.
  change (range MAX_RETRIES) with (0 :: [1; 2]).
  destruct (generate_content 0) as [rt| |e|e] eqn:H0.
  - rewrite (retry_loop_response _ _ _ _ _ _ _ _ H0).
    destruct (record_response_ok rt _ _ Hlog) as (s2 & t2 & ->). reflexivity.
  - rewrite (retry_loop_name_error module_globals uniform generate_content
               0 [1; 2] _ _ H0 eq_refl random_not_imported).
    reflexivity.
  - rewrite (retry_loop_api_error _ _ _ _ _ _ _ _ H0).
    destruct (record_response_ok (Some MSG_API) _ _ Hlog) as (s2 & t2 & ->).
    reflexivity.
  - rewrite (retry_loop_exception _ _ _ _ _ _ _ _ H0).
    destruct (record_response_ok (Some MSG_UNKNOWN) _ _ Hlog) as (s2 & t2 & ->).
    reflexivity.
Qed.

(** X9: from a reachable state, rendering and logging never fail, and the
    way a run of [main] ends is decided by its input alone: the rerun after
    a reset; a normal end without a client or without a prompt; otherwise
    the rerun that follows the turn, except that [NameError] leaves the
    script when the first attempt is rate-limited. *)
Theorem main_exit (i : run_input) (s : session_state) :
  reachable s ->
  exit_of (main i s) = expected_exit i.
Proof.
  intros Hs. destruct (reachable_consistent s Hs) as [_ [rows Hrows]].
  unfold expected_exit, main. rewrite exit_of_bind.
  destruct (in_reset i) eqn:Hreset.
  { rewrite (setup_sidebar_exit i s Hreset). reflexivity. }
  rewrite (setup_sidebar_ok i s rows Hreset Hrows).
  pose proof (setup_sidebar_state i s) as Hst. rewrite Hreset in Hst.
  rewrite Hst.
  destruct (in_client i) as [generate_content|]; [|reflexivity].
  rewrite exit_of_bind. cbn [exit_of read fst state_of snd].
  rewrite exit_of_bind. cbn [exit_of lift fst state_of snd].
  assert (Hrows' : log_data (chat_history (with_widgets i s)) = Ok rows)
    by exact Hrows.
  rewrite (render_history_log_data _ _ Hrows').
  destruct (truthy (in_prompt i)) eqn:Ht.
  - destruct (truthy_inv _ Ht) as (p & -> & Hp).
    apply (handle_user_turn_exit _ _ _ _ rows Hp Hrows').
  - rewrite handle_user_turn_rejected by assumption. reflexivity.
Qed.

Lemma main_exit_witness :
  reachable sample_state /\
  exit_of (main sample_run sample_state) = Raise RerunException.
Proof.
  assert (H : reachable sample_state) by apply reachable_initial.
  split; [exact H|].
  exact (main_exit sample_run sample_state H).
Defined.

(** X10: when the reset button is pressed the run does nothing else: the
    history is emptied, the counter zeroed, the session id replaced by the
    fresh one, the widget values kept, and the run ends by the rerun with no
    remote call and no CSV write, even if a prompt was submitted with it. *)
Theorem reset_run (i : run_input) (s : session_state) :
  in_reset i = true ->
  main i s
  = (Raise RerunException,
     {| session_id := in_uuid i;
        chat_history := [];
        log_count := 0;
        selected_model := in_model i;
        auto_record_csv := in_auto_record i |},
     []).
Proof.
  intros Hreset. unfold main, setup_sidebar. run_script. cbn.
  rewrite Hreset. reflexivity.
Qed.

(** X11: a run that is not a reset and has no client (no API key) or no
    non-empty prompt leaves the history and the counter as they were and has
    no effect: without a key, a submitted prompt is dropped. *)
Theorem idle_run (i : run_input) (s : session_state) :
  in_reset i = false ->
  in_client i = None \/ truthy (in_prompt i) = false ->
  state_of (main i s) = with_widgets i s /\
  chat_history (state_of (main i s)) = chat_history s /\
  log_count (state_of (main i s)) = log_count s /\
  trace_of (main i s) = [].
Proof.
  intros Hreset Hidle.
  pose proof (setup_sidebar_state i s) as Hst. rewrite Hreset in Hst.
  assert (Hrun : state_of (main i s) = with_widgets i s /\
                 trace_of (main i s) = []).
  { unfold main. rewrite state_of_bind, trace_of_bind, setup_sidebar_trace, Hst.
    destruct (exit_of (setup_sidebar i s)); [|split; reflexivity].
    destruct (in_client i) as [generate_content|]; [|split; reflexivity].
    destruct Hidle as [[=]|Hfalsy].
    rewrite state_of_bind, trace_of_bind.
    cbn [exit_of read fst state_of trace_of snd].
    rewrite state_of_bind, trace_of_bind.
    cbn [exit_of lift fst state_of trace_of snd].
    destruct (render_history _); [|split; reflexivity].
    rewrite handle_user_turn_rejected by assumption. split; reflexivity. }
  destruct Hrun as [Hstate Htrace].
  split; [exact Hstate|]. rewrite Hstate.
  split; [reflexivity|]. split; [reflexivity|exact Htrace].
Qed.

(** When a run is not a reset, has a client and finds a history it can
    render, it is the turn handler run on the state with the widget values
    stored. *)
Lemma main_turn i s generate_content rows :
  in_reset i = false ->
  in_client i = Some generate_content ->
  log_data (chat_history s) = Ok rows ->
  main i s
  = handle_user_turn module_globals (in_uniform i) generate_content
      (in_prompt i) (with_widgets i s).
Proof.
  intros Hreset Hclient Hrows. unfold main, setup_sidebar. rewrite Hclient.
  assert (Hrender : render_history (chat_history s) = Ok tt)
    by (eapply render_history_log_data; exact Hrows).
  unfold with_widgets, set_widgets. run_script.
  cbn -[log_data render_history handle_user_turn].
  rewrite Hreset. cbn -[log_data render_history handle_user_turn].
  destruct (chat_history s) as [|m h] eqn:Hh;
    cbn -[log_data render_history handle_user_turn].
  - destruct (handle_user_turn _ _ _ _ _) as [[r s2] t2]. reflexivity.
  - rewrite Hrows. cbn -[log_data render_history handle_user_turn].
    rewrite Hrender. cbn -[log_data render_history handle_user_turn].
    destruct (handle_user_turn _ _ _ _ _) as [[r s2] t2]. reflexivity.
Qed.

(** X18: a reset followed by a run whose prompt gets a non-empty answer
    leaves a history of exactly that prompt and that answer, the counter at
    one and the fresh session id; the remote is sent the prompt alone, and
    the CSV, when enabled, is written under the new session id with those
    two rows. *)
Theorem turn_after_reset
  (i0 i : run_input) (generate_content : Z -> call_result)
  (p answer : string) (s : session_state) :
  in_reset i0 = true ->
  in_reset i = false ->
  in_client i = Some generate_content ->
  in_prompt i = Some p ->
  p <> "" ->
  answer <> "" ->
  generate_content 0 = Response (Some answer) ->
  main i (state_of (main i0 s))
  = (Raise RerunException,
     {| session_id := in_uuid i0;
        chat_history := [user_message_part p; model_message_part answer];
        log_count := 1;
        selected_model := in_model i;
        auto_record_csv := in_auto_record i |},
     EvGenerateContent (in_model i) [user_message_part p]
     :: (if in_auto_record i
         then [EvToCsv ("chat_log_" +:+ in_uuid i0 +:+ "_auto.csv")
                 [("user", p); ("model", answer)]]
         else [])).
Proof.
  intros Hreset0 Hreset Hclient Hprompt Hp Ha Hresp.
  assert (Hs0 : state_of (main i0 s)
                = {| session_id := in_uuid i0;
                     chat_history := [];
                     log_count := 0;
                     selected_model := in_model i0;
                     auto_record_csv := in_auto_record i0 |}).
  { unfold main, setup_sidebar. run_script. cbn. rewrite Hreset0. reflexivity. }
  rewrite Hs0.
  set (s0 := {| session_id := in_uuid i0;
                chat_history := [];
                log_count := 0;
                selected_model := in_model i0;
                auto_record_csv := in_auto_record i0 |}).
  rewrite (main_turn i s0 generate_content [] Hreset Hclient eq_refl).
  rewrite Hprompt.
  rewrite (handle_user_turn_answered module_globals (in_uniform i)
             generate_content p answer (with_widgets i s0) [] Hp Ha Hresp
             eq_refl).
  reflexivity.
Qed.

Lemma main_state_no_reset i s :
  in_reset i = false ->
  let sw := with_widgets i s in
  let s' := state_of (main i s) in
  s' = sw \/
  exists p, p <> "" /\
    (s' = after_user_turn sw p \/
     exists answer, answer <> "" /\
       s' = with_history sw
              (chat_history sw ++ [user_message_part p; model_message_part answer])
              (log_count sw + 1)).
Proof.
  intros Hreset. cbv zeta. unfold main. rewrite state_of_bind.
  pose proof (setup_sidebar_state i s) as Hst. rewrite Hreset in Hst.
  rewrite Hst.
  destruct (exit_of (setup_sidebar i s)); [|left; reflexivity].
  destruct (in_client i) as [generate_content|]; [|left; reflexivity].
  rewrite state_of_bind. cbn [exit_of read fst state_of snd].
  rewrite state_of_bind. cbn [exit_of lift fst state_of snd].
  destruct (render_history _); [|left; reflexivity].
  destruct (handle_user_turn_state module_globals (in_uniform i)
              generate_content (in_prompt i) (with_widgets i s))
    as [[_ ->]|(p & _ & Hp & H)].
  - left. reflexivity.
  - right. exists p. split; [assumption|]. exact H.
Qed.

(** X12: the session id changes on a reset and only then, and after every
    run the two widget keys hold the values chosen in that run. *)
Theorem main_session_id (i : run_input) (s : session_state) :
  session_id (state_of (main i s))
  = (if in_reset i then in_uuid i else session_id s) /\
  selected_model (state_of (main i s)) = in_model i /\
  auto_record_csv (state_of (main i s)) = in_auto_record i.
Proof.
  destruct (in_reset i) eqn:Hreset.
  - unfold main, setup_sidebar. run_script. cbn. rewrite Hreset.
    repeat split.
  - destruct (main_state_no_reset i s Hreset)
      as [->|(p & Hp & [->|(answer & Ha & ->)])]; repeat split.
Qed.

Lemma reset_run_witness :
  in_reset reset_input = true /\
  main reset_input one_turn_state
  = (Raise RerunException,
     {| session_id := "session-2";
        chat_history := [];
        log_count := 0;
        selected_model := "gemini-2.5-pro";
        auto_record_csv := false |},
     []).
Proof.
  split; [reflexivity|].
  exact (reset_run reset_input one_turn_state eq_refl).
Defined.

Lemma idle_run_witness :
  in_reset keyless_input = false /\
  (in_client keyless_input = None \/ truthy (in_prompt keyless_input) = false) /\
  chat_history (state_of (main keyless_input one_turn_state))
  = chat_history one_turn_state /\
  trace_of (main keyless_input one_turn_state) = [].
Proof.
  assert (H : in_client keyless_input = None \/
              truthy (in_prompt keyless_input) = false)
    by (left; reflexivity).
  split; [reflexivity|]. split; [exact H|].
  split.
  - exact (proj1 (proj2 (idle_run keyless_input one_turn_state eq_refl H))).
  - exact (proj2 (proj2 (proj2 (idle_run keyless_input one_turn_state eq_refl H)))).
Defined.

(** X13: with the module as written, an accepted turn makes exactly one
    remote call and never sleeps, whatever the remote does: its trace is that
    call, followed by at most one CSV write. *)
Theorem turn_makes_one_call
  (uniform : Z -> Q) (generate_content : Z -> call_result)
  (p : string) (s : session_state) :
  p <> "" ->
  let t := trace_of (handle_user_turn module_globals uniform generate_content
                       (Some p) s) in
  remote_calls t = 1%nat /\
  sleeps t = 0%nat /\
  exists tail,
    t = EvGenerateContent (selected_model s)
          (context_for_api MAX_HISTORY_PARTS
             (chat_history s ++ [user_message_part p])) :: tail /\
    (tail = [] \/ exists file_name rows, tail = [EvToCsv file_name rows]).
Proof.
  intros Hp. cbv zeta.
  rewrite handle_user_turn_accepted by assumption. cbv zeta.
  set (s1 := after_user_turn s p).
  set (contents := context_for_api MAX_HISTORY_PARTS (chat_history s1)).
  pose proof (retry_loop_single_call uniform generate_content contents s1)
    as Hloop.
  destruct (retry_loop _ _ _ _ contents s1) as [[[rt|e] s1'] t].
  - cbn [trace_of snd] in Hloop. subst t.
    assert (Hrec : trace_of (record_response rt s1) = [] \/
              exists file_name rows,
                trace_of (record_response rt s1) = [EvToCsv file_name rows]).
    { unfold record_response. destruct (truthy rt); [|left; reflexivity].
      run_script. cbn. destruct (auto_record_csv s); [|left; reflexivity].
      cbn. destruct (log_data _); [right; eauto|left; reflexivity]. }
    destruct (record_response rt s1) as [[r2 s2] t2].
    cbn [trace_of snd] in Hrec.
    assert (Htrace : trace_of
              (match r2 with
               | Ok _ => (@Raise unit RerunException, s2,
                          [EvGenerateContent (selected_model s1) contents]
                          ++ t2 ++ [])
               | Raise e => (Raise e, s2,
                             [EvGenerateContent (selected_model s1) contents]
                             ++ t2) end)
            = EvGenerateContent (selected_model s1) contents :: t2)
      by (destruct r2; cbn [trace_of snd]; rewrite ?app_nil_r; reflexivity).
    rewrite Htrace.
    destruct Hrec as [->|(file_name & rows & ->)].
    + repeat split. exists []. split; [reflexivity|left; reflexivity].
    + repeat split. eexists. split; [reflexivity|right; eauto].
  - cbn [trace_of snd] in *. subst t.
    repeat split. exists []. split; [reflexivity|left; reflexivity].
Qed.

Lemma turn_after_reset_witness :
  in_reset reset_input = true /\
  in_reset sample_run = false /\
  in_client sample_run = Some remote_ok /\
  in_prompt sample_run = Some "hi" /\
  "hi" <> "" /\ "ok" <> "" /\
  remote_ok 0 = Response (Some "ok") /\
  chat_history (state_of (main sample_run (state_of (main reset_input one_turn_state))))
  = [user_message_part "hi"; model_message_part "ok"].
Proof.
  assert (H1 : "hi" <> "") by discriminate.
  assert (H2 : "ok" <> "") by discriminate.
  repeat (split; [first [reflexivity|assumption]|]).
  exact (f_equal (fun r => chat_history (state_of r))
           (turn_after_reset reset_input sample_run remote_ok "hi" "ok"
              one_turn_state eq_refl eq_refl eq_refl eq_refl H1 H2 eq_refl)).
Defined.

Lemma turn_makes_one_call_witness :
  "hi" <> "" /\
  remote_calls
    (trace_of (handle_user_turn module_globals half remote_rate_limited
                 (Some "hi") sample_state)) = 1%nat.
Proof.
  assert (H : "hi" <> "") by discriminate.
  split; [exact H|].
  exact (proj1 (turn_makes_one_call half remote_rate_limited "hi"
                  sample_state H)).
Defined.

(** X14: a prompt whose first attempt was rate-limited stays in the history
    unanswered, with the counter unchanged, and the next accepted prompt is
    sent to the remote together with it: the context then holds two user
    messages in a row. *)
Theorem unanswered_prompt_resent
  (uniform1 uniform2 : Z -> Q) (remote1 remote2 : Z -> call_result)
  (p1 p2 : string) (s : session_state) :
  p1 <> "" ->
  p2 <> "" ->
  remote1 0 = RaiseResourceExhaustedError ->
  let s1 := state_of (handle_user_turn module_globals uniform1 remote1
                        (Some p1) s) in
  chat_history s1 = chat_history s ++ [user_message_part p1] /\
  log_count s1 = log_count s /\
  exists t,
    trace_of (handle_user_turn module_globals uniform2 remote2 (Some p2) s1)
    = EvGenerateContent (selected_model s)
        (context_for_api MAX_HISTORY_PARTS
           (chat_history s ++ [user_message_part p1; user_message_part p2]))
      :: t.
Proof.
  intros Hp1 Hp2 Hlimited. cbv zeta.
  rewrite (rate_limited_turn_raises_name_error uniform1 remote1 p1 s Hp1
             Hlimited).
  cbn [state_of fst snd].
  split; [reflexivity|]. split; [reflexivity|].
  destruct (handle_user_turn_calls module_globals uniform2 remote2 p2
              (after_user_turn s p1) Hp2) as [[t Ht] _].
  exists t. rewrite Ht.
  cbn [after_user_turn with_history chat_history selected_model].
  rewrite <- app_assoc. reflexivity.
Qed.

Lemma unanswered_prompt_resent_witness :
  "one" <> "" /\ "two" <> "" /\
  remote_rate_limited 0 = RaiseResourceExhaustedError /\
  chat_history
    (state_of (handle_user_turn module_globals half remote_rate_limited
                 (Some "one") sample_state))
  = chat_history sample_state ++ [user_message_part "one"].
Proof.
  assert (H1 : "one" <> "") by discriminate.
  assert (H2 : "two" <> "") by discriminate.
  assert (H3 : remote_rate_limited 0 = RaiseResourceExhaustedError)
    by reflexivity.
  split; [exact H1|]. split; [exact H2|]. split; [exact H3|].
  exact (proj1 (unanswered_prompt_resent half half remote_rate_limited
                  remote_ok "one" "two" sample_state H1 H2 H3)).
Defined.

(** ** The client and the display *)

(** X15: [get_gemini_client] returns a client exactly when the constructor
    accepts the key it is given, and that key is the secret when a non-empty
    secret is set (the sidebar input is then not used), otherwise the
    non-empty key typed in the sidebar. *)
Theorem get_gemini_client_key
  (secret : option string) (user_input_key : string)
  (new_client : string -> construction) (c : client) :
  fst (get_gemini_client secret user_input_key new_client) = Some c <->
  new_client (client_api_key c) = Constructed /\
  ((truthy secret = true /\ secret = Some (client_api_key c)) \/
   (truthy secret = false /\ user_input_key = client_api_key c /\
    user_input_key <> "")).
Proof.
  unfold get_gemini_client, create_client. destruct c as [key]. cbn [client_api_key].
  destruct (truthy secret) eqn:Hs.
  - destruct (truthy_inv _ Hs) as (k & -> & Hk). cbn [default from_option id].
    split.
    + destruct (new_client k) eqn:Hn; cbn; [|discriminate].
      intros [= <-]. split; [exact Hn|]. left. split; reflexivity.
    + intros [Hn [[_ [= ->]]|[[=] _]]]. rewrite Hn. reflexivity.
  - destruct (truthy (Some user_input_key)) eqn:Hu.
    + destruct (truthy_inv _ Hu) as (k & [= <-] & Hk). split.
      * destruct (new_client user_input_key) eqn:Hn; cbn; [|discriminate].
        intros [= <-]. split; [exact Hn|]. right. repeat split; assumption.
      * intros [Hn [[[=] _]|(_ & -> & _)]]. rewrite Hn. reflexivity.
    + split; [discriminate|].
      intros [_ [[[=] _]|(_ & -> & Hk)]].
      rewrite truthy_Some in Hu by assumption. discriminate.
Qed.

(** X16: the sidebar of [get_gemini_client] tells what happened: no notice
    when the secret is used and the client is built, the warning whenever
    the secret is missing or empty, the info line exactly when no key is
    available at all, and an error notice exactly when the constructor
    raises. *)
Theorem get_gemini_client_notices
  (secret : option string) (user_input_key : string)
  (new_client : string -> construction) :
  let notices := snd (get_gemini_client secret user_input_key new_client) in
  (NoticeWarning ∈ notices <-> truthy secret = false) /\
  (NoticeInfo ∈ notices <->
   truthy secret = false /\ user_input_key = "") /\
  (forall e, NoticeError e ∈ notices <->
     (truthy secret = true /\
      new_client (default "" secret) = ConstructionRaises e) \/
     (truthy secret = false /\ user_input_key <> "" /\
      new_client user_input_key = ConstructionRaises e)).
Proof.
  cbv zeta. unfold get_gemini_client, create_client.
  destruct (truthy secret) eqn:Hs.
  - destruct (new_client (default "" secret)) eqn:Hn; cbn [snd];
      (split; [|split; [|intros e']]);
        rewrite ?elem_of_cons, ?elem_of_nil;
        intuition (try discriminate; try congruence).
  - destruct (String.eqb_spec user_input_key "") as [->|Hk].
    + cbn [truthy String.eqb negb snd].
      (split; [|split; [|intros e']]);
        rewrite ?elem_of_cons, ?elem_of_nil;
        intuition (try discriminate; try congruence).
    + rewrite (truthy_Some _ Hk).
      destruct (new_client user_input_key) eqn:Hn; cbn [snd];
        (split; [|split; [|intros e']]);
        rewrite ?elem_of_cons, ?elem_of_nil;
        intuition (try discriminate; try congruence).
Qed.

(** X17: the chat bubbles and the CSV rows come from the same messages in
    the same order with the same texts; they differ only in the role, which
    the display shows as "assistant" for everything that is not "user".
    Rendering fails exactly when building the rows fails. *)
Theorem chat_messages_follow_log (h : list message) :
  chat_messages h
  = match log_data h with
    | Ok rows =>
        Ok (map (fun row : string * string =>
                   (if String.eqb (fst row) "user" then "user" else "assistant",
                    snd row)) rows)
    | Raise e => Raise e
    end /\
  render_history h
  = match log_data h with
    | Ok _ => Ok tt
    | Raise e => Raise e
    end.
Proof.
  induction h as [|m h [IH1 IH2]]; [split; reflexivity|].
  cbn [chat_messages log_data render_history].
  destruct (first_text m) as [content|e]; [|split; reflexivity].
  rewrite IH1, IH2. destruct (log_data h); split; reflexivity.
Qed.
